(** * Catch the Falling Squares: the game loop and its websocket bridge

    A shallow embedding of [server/catchthesquares.py].

    - Python integers are mathematical integers ([Z]).
    - Python values that travel through dynamically typed containers (the
      control queue, [game_state['squares']], decoded JSON) are values of
      [pyval]; an operation that raises returns an [exn].
    - [game_state] is a dictionary with five fixed keys: a record.
    - A sprite group keeps its members in insertion order: a list.
    - What one iteration of the [while running] loop of [game()] reads from
      outside (the pygame event queue, the keyboard, the controls appended
      by the websocket handlers, the draws of the random generator) is its
      [Input].
    - [game_state_lock] is a [threading.Lock], which is not re-entrant.
      [game()] holds it (line 246) when [all_sprites.update()] calls
      [Paddle.update], which acquires it again (line 72): an iteration that
      starts with the game running blocks there for ever, holding the lock.
      [tick_progress], [loop_progress] and [game_progress] are the loop as
      it runs, with the state of its variables where it blocks.
    - [game_logic], [game_tick], [game_loop] and [game] are the loop as it
      would run with a re-entrant lock. On an iteration that starts with
      the game over the two agree; on any other, [game_tick] goes on where
      the program blocks. Every published state of the program is a
      published state of [game], so an invariant of [game] holds of the
      program; what needs a running iteration to complete is stated of
      [tick_progress] instead. *)

From Stdlib Require Import ZArith Lia.
From stdpp Require Import base decidable list strings gmap sets pretty.

Local Open Scope Z_scope.
Set Warnings "-register-all".

(** ** Game constants *)

Definition SCREEN_WIDTH : Z := 800.
Definition SCREEN_HEIGHT : Z := 600.
Definition PADDLE_WIDTH : Z := 100.
Definition PADDLE_HEIGHT : Z := 20.
Definition SQUARE_SIZE : Z := 30.
Definition FALL_SPEED : Z := 3.
Definition INITIAL_LIVES : Z := 3.

(** ** pygame rectangles *)

Module Pygame.

Record Rect := mkRect { rect_x : Z; rect_y : Z; rect_w : Z; rect_h : Z }.

Definition left (r : Rect) : Z := rect_x r.
Definition top (r : Rect) : Z := rect_y r.
Definition right (r : Rect) : Z := rect_x r + rect_w r.
Definition bottom (r : Rect) : Z := rect_y r + rect_h r.

(** [Surface([w, h]).get_rect()] *)
Definition get_rect (w h : Z) : Rect := mkRect 0 0 w h.

Definition set_x (r : Rect) (v : Z) : Rect :=
  mkRect v (rect_y r) (rect_w r) (rect_h r).
Definition set_y (r : Rect) (v : Z) : Rect :=
  mkRect (rect_x r) v (rect_w r) (rect_h r).
(** [rect.left = v], [rect.right = v], [rect.bottom = v],
    [rect.centerx = v]: the rectangle is moved, its size is kept. *)
Definition set_left (r : Rect) (v : Z) : Rect := set_x r v.
Definition set_right (r : Rect) (v : Z) : Rect := set_x r (v - rect_w r).
Definition set_bottom (r : Rect) (v : Z) : Rect := set_y r (v - rect_h r).
Definition set_centerx (r : Rect) (v : Z) : Rect := set_x r (v - rect_w r / 2).

(** [a.colliderect(b)]: the two rectangles overlap; touching edges do
    not count, and a rectangle of zero width or height overlaps nothing. *)
Definition colliderect (a b : Rect) : bool :=
  if (rect_w a =? 0) || (rect_h a =? 0) || (rect_w b =? 0) || (rect_h b =? 0)
  then false
  else (Z.min (left a) (right a) <? Z.max (left b) (right b))
    && (Z.min (top a) (bottom a) <? Z.max (top b) (bottom b))
    && (Z.min (left b) (right b) <? Z.max (left a) (right a))
    && (Z.min (top b) (bottom b) <? Z.max (top a) (bottom a)).

End Pygame.
Import Pygame.

(** ** Sprites and Python values *)

Record Paddle := mkPaddle { paddle_rect : Rect; paddle_speed : Z }.

Record FallingSquare :=
  mkSquare { sq_rect : Rect; sq_speed : Z; sq_id : string }.

#[global] Instance Rect_eq_dec : EqDecision Rect.
Proof. solve_decision. Defined.
#[global] Instance FallingSquare_eq_dec : EqDecision FallingSquare.
Proof. solve_decision. Defined.

(** The Python values of this program: what [json.loads] can return, and
    the sprite objects. A dictionary keeps its insertion order. *)
Inductive pyval :=
| PyNone
| PyBool (b : bool)
| PyInt (z : Z)
| PyFloat (literal : string)
| PyStr (s : string)
| PyList (items : list pyval)
| PyDict (items : list (string * pyval))
| PySprite (s : FallingSquare).

Inductive exn := AttributeError | JSONDecodeError | KeyError.

(** [v == s] for a string literal [s] *)
Definition py_eq_str (v : pyval) (s : string) : bool :=
  match v with
  | PyStr t => bool_decide (t = s)
  | _ => false
  end.

(** [d.get(key)] on the items of a dictionary (their keys are distinct):
    [None] when absent *)
Fixpoint dict_get (items : list (string * pyval)) (key : string) : pyval :=
  match items with
  | [] => PyNone
  | (k, v) :: rest => if bool_decide (k = key) then v else dict_get rest key
  end.

(** [sq.rect] and [sq.id]: only a sprite has these attributes *)
Definition getattr_rect (v : pyval) : exn + Rect :=
  match v with
  | PySprite s => inr (sq_rect s)
  | _ => inl AttributeError
  end.

Definition getattr_id (v : pyval) : exn + string :=
  match v with
  | PySprite s => inr (sq_id s)
  | _ => inl AttributeError
  end.

(** ** Shared game state *)

Record GameState := mkGameState {
  paddle_x : Z;
  squares : list pyval;
  score : Z;
  lives : Z;
  game_over : bool
}.

Definition set_paddle_x (gs : GameState) (v : Z) : GameState :=
  mkGameState v (squares gs) (score gs) (lives gs) (game_over gs).
Definition set_squares (gs : GameState) (v : list pyval) : GameState :=
  mkGameState (paddle_x gs) v (score gs) (lives gs) (game_over gs).
Definition set_score (gs : GameState) (v : Z) : GameState :=
  mkGameState (paddle_x gs) (squares gs) v (lives gs) (game_over gs).
Definition set_lives (gs : GameState) (v : Z) : GameState :=
  mkGameState (paddle_x gs) (squares gs) (score gs) v (game_over gs).
Definition set_game_over (gs : GameState) (v : bool) : GameState :=
  mkGameState (paddle_x gs) (squares gs) (score gs) (lives gs) v.

(** The module-level initial value of [game_state] *)
Definition game_state0 : GameState :=
  mkGameState (SCREEN_WIDTH / 2 - PADDLE_WIDTH / 2) [] 0 INITIAL_LIVES false.

(** ** Paddle *)

Record Keys := mkKeys { K_LEFT : bool; K_RIGHT : bool; K_r : bool; K_q : bool }.

Definition no_keys : Keys := mkKeys false false false false.

(** [Paddle.__init__]: builds the paddle and publishes its position *)
Definition Paddle_init (gs : GameState) : Paddle * GameState :=
  let rect := get_rect PADDLE_WIDTH PADDLE_HEIGHT in
  let rect := set_centerx rect (SCREEN_WIDTH / 2) in
  let rect := set_bottom rect (SCREEN_HEIGHT - 10) in
  (mkPaddle rect 8, set_paddle_x gs (rect_x rect)).

(** One control taken from the queue *)
Definition apply_control (speed : Z) (x : Z) (control : pyval) : Z :=
  if py_eq_str control "left" then x - speed
  else if py_eq_str control "right" then x + speed
  else x.

(** [while control_queue: control = control_queue.pop(0); ...]:
    returns the abscissa reached and the queue left behind. *)
Fixpoint drain_controls (speed : Z) (queue : list pyval) (x : Z)
  : Z * list pyval :=
  match queue with
  | [] => (x, [])
  | control :: rest => drain_controls speed rest (apply_control speed x control)
  end.

(** [Paddle.update] *)
Definition Paddle_update (p : Paddle) (keys : Keys) (gs : GameState)
    (queue : list pyval) : Paddle * GameState * list pyval :=
  let speed := paddle_speed p in
  let rect := paddle_rect p in
  let rect := if K_LEFT keys then set_x rect (rect_x rect - speed) else rect in
  let rect := if K_RIGHT keys then set_x rect (rect_x rect + speed) else rect in
  let '(x, queue) := drain_controls speed queue (rect_x rect) in
  let rect := set_x rect x in
  let rect := if left rect <? 0 then set_left rect 0 else rect in
  let rect := if SCREEN_WIDTH <? right rect
              then set_right rect SCREEN_WIDTH else rect in
  (mkPaddle rect speed, set_paddle_x gs (rect_x rect), queue).

(** ** Falling squares *)

(** [random.randrange(start, stop)] for [start < stop]; [draw] is the raw
    number delivered by the generator, reduced to the [stop - start]
    values [start, ..., stop - 1]. *)
Definition randrange (start stop : Z) (draw : Z) : Z :=
  start + draw mod (stop - start).

(** The equally likely results of [random.randrange(start, stop)] *)
Definition randrange_outcomes (start stop : Z) : list Z :=
  List.map (fun k => start + Z.of_nat k) (seq 0 (Z.to_nat (stop - start))).

(** [FallingSquare.__init__] *)
Definition FallingSquare_init (square_id : string) (draw_x draw_y : Z)
  : FallingSquare :=
  let rect := get_rect SQUARE_SIZE SQUARE_SIZE in
  let rect := set_x rect (randrange 0 (SCREEN_WIDTH - SQUARE_SIZE) draw_x) in
  let rect := set_y rect (randrange (-100) (- SQUARE_SIZE) draw_y) in
  mkSquare rect FALL_SPEED square_id.

(** [FallingSquare.update] *)
Definition FallingSquare_update (s : FallingSquare) : FallingSquare :=
  mkSquare (set_y (sq_rect s) (rect_y (sq_rect s) + sq_speed s))
           (sq_speed s) (sq_id s).

(** [f"sq_{n}"] *)
Definition square_name (n : Z) : string := "sq_" +:+ pretty n.

(** [{'x': sq.rect.x, 'y': sq.rect.y, 'id': sq.id}] *)
Definition square_dict (s : FallingSquare) : pyval :=
  PyDict [("x", PyInt (rect_x (sq_rect s)));
          ("y", PyInt (rect_y (sq_rect s)));
          ("id", PyStr (sq_id s))]%string.

(** ** The game loop *)

Inductive Event :=
| QUIT
| SPAWN_SQUARE (draw_x draw_y : Z)
    (** the timer event, with the two numbers the random generator hands
        to [FallingSquare.__init__] if the square is created *)
| OTHER_EVENT.

(** What one iteration of the loop reads from outside *)
Record Input := mkInput {
  events : list Event;      (** [pygame.event.get()] *)
  keys : Keys;              (** [pygame.key.get_pressed()] *)
  arrivals : list pyval     (** controls appended to [control_queue] by the
                                websocket handlers since the last iteration *)
}.

(** The variables of [game()] together with the shared globals.
    [all_sprites] always holds the paddle followed by the members of
    [falling_squares_pygame_group], so it is not kept separately. *)
Record Loop := mkLoop {
  game_state : GameState;
  control_queue : list pyval;
  paddle : Paddle;
  falling_squares_pygame_group : list FallingSquare;
  square_id_counter : Z;
  running : bool
}.

(** The body of [for event in pygame.event.get()] *)
Definition handle_event (st : Loop) (event : Event) : Loop :=
  let st :=
    match event with
    | QUIT => mkLoop (game_state st) (control_queue st) (paddle st)
                (falling_squares_pygame_group st) (square_id_counter st) false
    | _ => st
    end in
  match event with
  | SPAWN_SQUARE draw_x draw_y =>
      if negb (game_over (game_state st)) then
        let counter := square_id_counter st + 1 in
        let new_square := FallingSquare_init (square_name counter) draw_x draw_y in
        mkLoop (game_state st) (control_queue st) (paddle st)
          (falling_squares_pygame_group st ++ [new_square]) counter (running st)
      else st
  | _ => st
  end.

(** [pygame.sprite.spritecollide(paddle, group, True)]: the members of the
    group whose rectangle overlaps the paddle's, and the group without them *)
Definition spritecollide (p : Paddle) (group : list FallingSquare)
  : list FallingSquare * list FallingSquare :=
  List.partition (fun s => colliderect (paddle_rect p) (sq_rect s)) group.

(** [for square in caught_squares: game_state['score'] += 1] *)
Fixpoint score_caught (caught : list FallingSquare) (gs : GameState) : GameState :=
  match caught with
  | [] => gs
  | _ :: rest => score_caught rest (set_score gs (score gs + 1))
  end.

(** The loop over the group that counts the missed squares *)
Fixpoint miss_loop (group : list FallingSquare) (gs : GameState)
    (missed_squares_to_remove : list FallingSquare)
  : GameState * list FallingSquare :=
  match group with
  | [] => (gs, missed_squares_to_remove)
  | square :: rest =>
      if SCREEN_HEIGHT <? top (sq_rect square) then
        let gs := set_lives gs (lives gs - 1) in
        let missed := missed_squares_to_remove ++ [square] in
        let gs := if lives gs <=? 0 then set_game_over gs true else gs in
        miss_loop rest gs missed
      else miss_loop rest gs missed_squares_to_remove
  end.

(** [square.kill()]: the sprite leaves the group *)
Fixpoint kill (square : FallingSquare) (group : list FallingSquare)
  : list FallingSquare :=
  match group with
  | [] => []
  | s :: rest => if decide (s = square) then rest else s :: kill square rest
  end.

(** [for square in missed_squares_to_remove: square.kill()] *)
Definition kill_all (missed group : list FallingSquare) : list FallingSquare :=
  fold_left (fun g square => kill square g) missed group.

(** The block under [if not game_state['game_over']], as it would run with
    a re-entrant lock (with [game_state_lock] as it is, see [tick_progress]) *)
Definition game_logic (st : Loop) (k : Keys) : Loop :=
  (* all_sprites.update() *)
  let '(p, gs, queue) :=
    Paddle_update (paddle st) k (game_state st) (control_queue st) in
  let group := List.map FallingSquare_update (falling_squares_pygame_group st) in
  (* catches *)
  let '(caught_squares, group) := spritecollide p group in
  let gs := score_caught caught_squares gs in
  (* misses *)
  let '(gs, missed_squares_to_remove) := miss_loop group gs [] in
  let group := kill_all missed_squares_to_remove group in
  let gs := set_squares gs (List.map square_dict group) in
  let gs := if lives gs <=? 0 then set_game_over gs true else gs in
  mkLoop gs queue p group (square_id_counter st) (running st).

(** The game-over screen: [R] resets the game, [Q] leaves the loop *)
Definition game_over_screen (st : Loop) (k : Keys) : Loop :=
  if game_over (game_state st) then
    if K_r k then
      let gs := game_state st in
      let gs := set_score gs 0 in
      let gs := set_lives gs INITIAL_LIVES in
      let gs := set_game_over gs false in
      let gs := set_squares gs [] in
      let '(p, gs) := Paddle_init gs in
      mkLoop gs (control_queue st) p [] (square_id_counter st) (running st)
    else if K_q k then
      mkLoop (game_state st) (control_queue st) (paddle st)
        (falling_squares_pygame_group st) (square_id_counter st) false
    else st
  else st.

(** The websocket handlers append to the shared queue *)
Definition enqueue (st : Loop) (controls : list pyval) : Loop :=
  mkLoop (game_state st) (control_queue st ++ controls) (paddle st)
    (falling_squares_pygame_group st) (square_id_counter st) (running st).

(** One iteration of [while running], with a re-entrant lock *)
Definition game_tick (st : Loop) (inp : Input) : Loop :=
  let st := enqueue st (arrivals inp) in
  let st := fold_left handle_event (events inp) st in
  let st := if negb (game_over (game_state st))
            then game_logic st (keys inp) else st in
  game_over_screen st (keys inp).

(** The state on entry to the loop *)
Definition game_start : Loop :=
  let '(p, gs) := Paddle_init game_state0 in
  mkLoop gs [] p [] 0 true.

(** [while running: ...] over the inputs of the successive iterations *)
Fixpoint game_loop (st : Loop) (inputs : list Input) : Loop :=
  match inputs with
  | [] => st
  | inp :: rest => if running st then game_loop (game_tick st inp) rest else st
  end.

Definition game (inputs : list Input) : Loop := game_loop game_start inputs.

(** ** The websocket server *)

Definition websocket := nat.

(** A message received on a connection, by what [json.loads] does with it:
    it raises on [text], or it returns [data]. *)
Inductive inbound :=
| Undecodable (text : string)
| Decoded (data : pyval).

(** [register] *)
Definition register (ws : websocket) (connected_clients : gset websocket)
  : gset websocket :=
  connected_clients ∪ {[ws]}.

(** [unregister]: [set.remove] raises when the element is absent *)
Definition unregister (ws : websocket) (connected_clients : gset websocket)
  : exn + gset websocket :=
  if decide (ws ∈ connected_clients)
  then inr (connected_clients ∖ {[ws]}) else inl KeyError.

(** The body of [async for message in websocket], after [json.loads] *)
Definition on_message (data : pyval) (queue : list pyval)
  : exn + list pyval :=
  match data with
  | PyDict items =>
      if py_eq_str (dict_get items "type") "control"
      then inr (queue ++ [dict_get items "direction"])
      else inr queue
  | _ => inl AttributeError       (* [data.get] on a value that is no dict *)
  end.

(** The [async for] loop inside the [try]: the queue it leaves, the
    exception that ended it (if any) and the messages it never read. *)
Fixpoint receive_loop (messages : list inbound) (queue : list pyval)
  : list pyval * option exn * list inbound :=
  match messages with
  | [] => (queue, None, [])
  | Undecodable _ :: rest => (queue, Some JSONDecodeError, rest)
  | Decoded data :: rest =>
      match on_message data queue with
      | inl e => (queue, Some e, rest)
      | inr queue => receive_loop rest queue
      end
  end.

Record Handled := mkHandled {
  h_clients : exn + gset websocket;  (** [connected_clients] on return *)
  h_queue : list pyval;              (** [control_queue] on return *)
  h_caught : option exn;             (** what [except Exception] printed *)
  h_unread : list inbound            (** messages left unread *)
}.

(** [websocket_handler]: register, read until the stream ends or an
    exception leaves the loop, and unregister in the [finally] clause. *)
Definition websocket_handler (ws : websocket) (messages : list inbound)
    (connected_clients : gset websocket) (queue : list pyval) : Handled :=
  let clients := register ws connected_clients in
  let '(queue, caught, unread) := receive_loop messages queue in
  mkHandled (unregister ws clients) queue caught unread.

(** The comprehension of [send_game_state_to_clients]:
    [[{'x': sq.rect.x, 'y': sq.rect.y, 'id': sq.id} for sq in squares]] *)
Fixpoint client_squares (sqs : list pyval) : exn + list pyval :=
  match sqs with
  | [] => inr []
  | sq :: rest =>
      match getattr_rect sq with
      | inl e => inl e
      | inr rect =>
          match getattr_id sq with
          | inl e => inl e
          | inr id =>
              match client_squares rest with
              | inl e => inl e
              | inr ds =>
                  inr (PyDict [("x", PyInt (rect_x rect));
                               ("y", PyInt (rect_y rect));
                               ("id", PyStr id)]%string :: ds)
              end
          end
      end
  end.

(** What one period of the broadcast task does *)
Inductive Broadcast :=
| Idle                                   (** no client: nothing is built *)
| Raised (e : exn)                       (** the task ends with [e] *)
| Sent (state : pyval) (receivers : gset websocket)
    (** [json.dumps(state)] is sent to every receiver *).

(** One iteration of [while True] in [send_game_state_to_clients] *)
Definition send_game_state_to_clients (connected_clients : gset websocket)
    (gs : GameState) : Broadcast :=
  if decide (connected_clients = ∅) then Idle
  else
    match client_squares (squares gs) with
    | inl e => Raised e
    | inr cs =>
        Sent (PyDict [("paddle_x", PyInt (paddle_x gs));
                      ("squares", PyList cs);
                      ("score", PyInt (score gs));
                      ("lives", PyInt (lives gs));
                      ("game_over", PyBool (game_over gs))]%string)
             connected_clients
    end.

(** ** The behaviour the specification describes, for comparison *)

Definition clamp_paddle (x : Z) : Z :=
  Z.max 0 (Z.min (SCREEN_WIDTH - PADDLE_WIDTH) x).

(** Commands applied one at a time, clamping after each of them *)
Fixpoint spec_apply_clamped (speed : Z) (queue : list pyval) (x : Z) : Z :=
  match queue with
  | [] => x
  | control :: rest =>
      spec_apply_clamped speed rest (clamp_paddle (apply_control speed x control))
  end.

(** An ingest loop that skips a message it cannot decode and goes on *)
Fixpoint spec_receive_loop (messages : list inbound) (queue : list pyval)
  : list pyval :=
  match messages with
  | [] => queue
  | Undecodable _ :: rest => spec_receive_loop rest queue
  | Decoded data :: rest =>
      match on_message data queue with
      | inl _ => spec_receive_loop rest queue
      | inr queue => spec_receive_loop rest queue
      end
  end.

(** ** Vocabulary of the statements *)

(** The move asked for by the arrow keys, by one control, by a batch *)
Definition key_delta (speed : Z) (k : Keys) : Z :=
  (if K_LEFT k then - speed else 0) + (if K_RIGHT k then speed else 0).

Definition control_delta (speed : Z) (control : pyval) : Z :=
  apply_control speed 0 control.

Definition batch_delta (speed : Z) (queue : list pyval) : Z :=
  fold_right (fun control acc => control_delta speed control + acc) 0 queue.

(** A square overlaps the paddle; a square has its top edge below the screen *)
Definition is_caught (p : Paddle) (s : FallingSquare) : bool :=
  colliderect (paddle_rect p) (sq_rect s).

Definition is_missed (s : FallingSquare) : bool :=
  SCREEN_HEIGHT <? top (sq_rect s).

(** The loop state once the events of an iteration are handled, and the
    paddle and the squares as [all_sprites.update()] leaves them *)
Definition after_events (st : Loop) (inp : Input) : Loop :=
  fold_left handle_event (events inp) (enqueue st (arrivals inp)).

Definition paddle_in_play (st : Loop) (inp : Input) : Paddle :=
  (Paddle_update (paddle st) (keys inp) (game_state st)
     (control_queue st ++ arrivals inp)).1.1.

Definition squares_in_play (st : Loop) (inp : Input) : list FallingSquare :=
  List.map FallingSquare_update
    (falling_squares_pygame_group (after_events st inp)).

(** Number of squares of a list that satisfy a test *)
Definition count (f : FallingSquare -> bool) (l : list FallingSquare) : Z :=
  Z.of_nat (length (List.filter f l)).

(** The control messages a browser sends *)
Definition control_message (direction : string) : inbound :=
  Decoded (PyDict [("type", PyStr "control");
                   ("direction", PyStr direction)]%string).

(** The square ids in a group come from the counter and are distinct *)
Definition ids_ok (counter : Z) (group : list FallingSquare) : Prop :=
  Forall (fun s => exists n, 0 < n <= counter /\ sq_id s = square_name n) group
  /\ NoDup (List.map sq_id group).

(** What holds of the loop state between two iterations *)
Record loop_inv (st : Loop) : Prop := mkLoopInv {
  inv_rect :
    paddle_rect (paddle st)
    = mkRect (paddle_x (game_state st)) (SCREEN_HEIGHT - 10 - PADDLE_HEIGHT)
        PADDLE_WIDTH PADDLE_HEIGHT;
  inv_speed : paddle_speed (paddle st) = 8;
  inv_range : 0 <= paddle_x (game_state st) <= SCREEN_WIDTH - PADDLE_WIDTH;
  inv_lives : lives (game_state st) <= INITIAL_LIVES;
  inv_over : game_over (game_state st) = (lives (game_state st) <=? 0);
  inv_score : 0 <= score (game_state st);
  inv_squares :
    squares (game_state st)
    = List.map square_dict (falling_squares_pygame_group st);
  inv_counter : 0 <= square_id_counter st;
  inv_ids : ids_ok (square_id_counter st) (falling_squares_pygame_group st)
}.

(** ** Scenarios *)

(** An iteration in which nothing arrives *)
Definition idle : Input := mkInput [] no_keys [].

(** An iteration whose event queue holds [n] timer events; each square is
    drawn at [x = 0] (far from the paddle) and [y = -31]. [pygame.event.get()]
    returns every event queued since the previous call, so [n] exceeds one
    when an iteration took longer than the timer period. *)
Definition spawn_left (n : nat) : Input :=
  mkInput (repeat (SPAWN_SQUARE 0 69) n) no_keys [].

(** One square every sixty iterations, nobody playing: the third miss
    comes in iteration 331. *)
Definition unattended (i : nat) : Input :=
  if (i mod 60 =? 0)%nat then spawn_left 1 else idle.

Definition lost_game : list Input := List.map unattended (seq 0 331).

Definition left_arrives : Input := mkInput [] no_keys [PyStr "left"].
Definition press_r : Input := mkInput [] (mkKeys false false true false) [].

(** Forty-four [left] controls take the paddle to the left wall *)
Definition to_left_wall : Input := mkInput [] no_keys (repeat (PyStr "left") 44).
Definition left_then_right : list pyval := [PyStr "left"; PyStr "right"].

(** A first iteration with one timer event *)
Definition first_spawn : list Input := [spawn_left 1].

(** A frame that does not parse, followed by a [left] control *)
Definition bad_then_left : list inbound :=
  [Undecodable "{"; control_message "left"].

(** A square drawn above the paddle ([x = 380]) is [190] iterations old *)
Definition catch_run : list Input :=
  mkInput [SPAWN_SQUARE 380 69] no_keys [] :: repeat idle 189.

(** ** Vocabulary of the further properties *)

(** A control that moves the paddle *)
Definition is_move (control : pyval) : bool :=
  py_eq_str control "left" || py_eq_str control "right".

(** The squares of the group between two iterations: their size and speed
    are the constants, and they lie between the spawn band and the bottom
    of the screen. *)
Definition square_ok (s : FallingSquare) : Prop :=
  rect_w (sq_rect s) = SQUARE_SIZE
  /\ rect_h (sq_rect s) = SQUARE_SIZE
  /\ sq_speed s = FALL_SPEED
  /\ 0 <= rect_x (sq_rect s) <= SCREEN_WIDTH - SQUARE_SIZE - 1
  /\ -100 + FALL_SPEED <= rect_y (sq_rect s) <= SCREEN_HEIGHT.

(** The same before [FallingSquare.update] has run on a new square *)
Definition square_fresh_or_ok (s : FallingSquare) : Prop :=
  rect_w (sq_rect s) = SQUARE_SIZE
  /\ rect_h (sq_rect s) = SQUARE_SIZE
  /\ sq_speed s = FALL_SPEED
  /\ 0 <= rect_x (sq_rect s) <= SCREEN_WIDTH - SQUARE_SIZE - 1
  /\ -100 <= rect_y (sq_rect s) <= SCREEN_HEIGHT.

(** [d['id']] of a published square *)
Definition published_id (d : pyval) : pyval :=
  match d with
  | PyDict items => dict_get items "id"
  | _ => PyNone
  end.

Definition is_spawn (event : Event) : bool :=
  match event with SPAWN_SQUARE _ _ => true | _ => false end.

Definition is_quit (event : Event) : bool :=
  match event with QUIT => true | _ => false end.

(** Number of timer events in a batch *)
Definition spawn_count (es : list Event) : Z :=
  Z.of_nat (length (List.filter is_spawn es)).

(** A message that decodes to a JSON object *)
Definition is_object (m : inbound) : bool :=
  match m with
  | Decoded (PyDict _) => true
  | _ => false
  end.

Definition is_dict (v : pyval) : bool :=
  match v with PyDict _ => true | _ => false end.

(** The directions of the control messages of a stream, in order *)
Fixpoint controls_of (messages : list inbound) : list pyval :=
  match messages with
  | [] => []
  | Decoded (PyDict items) :: rest =>
      if py_eq_str (dict_get items "type") "control"
      then dict_get items "direction" :: controls_of rest
      else controls_of rest
  | _ :: rest => controls_of rest
  end.

(** ** The lock, as [threading.Lock] behaves *)

(** A step of the main thread either returns or waits for ever *)
Inductive Outcome (A : Type) :=
| Returned (a : A)
| Blocked.
Arguments Returned {A} a.
Arguments Blocked {A}.

(** [with game_state_lock: body]: [threading.Lock] is not re-entrant, so
    the thread that already holds the lock blocks on the second
    acquisition; no other thread releases a lock it has not acquired. *)
Definition with_game_state_lock {A} (held : bool) (body : A) : Outcome A :=
  if held then Blocked else Returned body.

(** [Paddle.update], whose two [with game_state_lock] blocks are entered
    with the lock [held] or not by the calling thread *)
Definition Paddle_update_locking (held : bool) (p : Paddle) (k : Keys)
    (gs : GameState) (queue : list pyval)
  : Outcome (Paddle * GameState * list pyval) :=
  with_game_state_lock held (Paddle_update p k gs queue).

(** The block of [game()] under [with game_state_lock] (line 246): inside
    it the main thread holds the lock, and [all_sprites.update()] calls
    [Paddle.update]. *)
Definition locked_block (st : Loop) (k : Keys) : Outcome Loop :=
  match with_game_state_lock false tt with
  | Blocked => Blocked
  | Returned _ =>
      if negb (game_over (game_state st)) then
        match Paddle_update_locking true (paddle st) k (game_state st)
                (control_queue st) with
        | Blocked => Blocked
        | Returned _ => Returned (game_logic st k)
        end
      else Returned st
  end.

(** One iteration of [while running] with the lock as it is. The restart
    block and [Paddle.__init__] take the lock while it is free. *)
Definition game_tick_locking (st : Loop) (inp : Input) : Outcome Loop :=
  match locked_block (after_events st inp) (keys inp) with
  | Blocked => Blocked
  | Returned st => Returned (game_over_screen st (keys inp))
  end.

(** The squares created by the timer events of a batch while the game is
    running, in event order: the first one takes the id after [counter]. *)
Fixpoint spawns (counter : Z) (es : list Event) : list FallingSquare :=
  match es with
  | [] => []
  | SPAWN_SQUARE draw_x draw_y :: rest =>
      FallingSquare_init (square_name (counter + 1)) draw_x draw_y
      :: spawns (counter + 1) rest
  | _ :: rest => spawns counter rest
  end.

(** ** The loop as it runs *)

(** Lines 65-69 of [Paddle.update]: the arrow keys move the rectangle
    before the method reaches its first [with game_state_lock]. *)
Definition Paddle_keys (p : Paddle) (k : Keys) : Paddle :=
  let rect := paddle_rect p in
  let rect := if K_LEFT k then set_x rect (rect_x rect - paddle_speed p)
              else rect in
  let rect := if K_RIGHT k then set_x rect (rect_x rect + paddle_speed p)
              else rect in
  mkPaddle rect (paddle_speed p).

(** How far the main thread gets: to the end of the iteration, or to line
    72, where it waits for the lock it holds, with its variables as they
    are at that point. *)
Inductive Progress :=
| Completed (st : Loop)
| Stuck (st : Loop).

Definition observed (p : Progress) : Loop :=
  match p with
  | Completed st => st
  | Stuck st => st
  end.

(** The main thread holds the lock between line 246 and the end of the
    block: after an iteration that completed the lock is free, and a
    thread stuck at line 72 holds it for ever. *)
Definition lock_held (p : Progress) : bool :=
  match p with
  | Completed _ => false
  | Stuck _ => true
  end.

(** One iteration of [while running], with [game_state_lock] as it is:
    the events are handled (lines 235-243); if the game is running, the
    block at line 246 calls [Paddle.update], the keys move the paddle
    sprite, and the thread is stuck at line 72; if the game is over, the
    block does nothing and the game-over screen follows. *)
Definition tick_progress (st : Loop) (inp : Input) : Progress :=
  let st := after_events st inp in
  if negb (game_over (game_state st)) then
    Stuck (mkLoop (game_state st) (control_queue st)
             (Paddle_keys (paddle st) (keys inp))
             (falling_squares_pygame_group st) (square_id_counter st)
             (running st))
  else Completed (game_over_screen st (keys inp)).

(** [while running: ...]: a stuck thread reads no further input *)
Fixpoint loop_progress (st : Loop) (inputs : list Input) : Progress :=
  match inputs with
  | [] => Completed st
  | inp :: rest =>
      if running st then
        match tick_progress st inp with
        | Completed st => loop_progress st rest
        | Stuck st => Stuck st
        end
      else Completed st
  end.

Definition game_progress (inputs : list Input) : Progress :=
  loop_progress game_start inputs.

(** One period of the broadcast task run by the websocket thread: without
    clients the lock is not requested; with clients the thread enters
    [with game_state_lock] (line 154), which it never gets while the main
    thread is stuck holding it. *)
Definition send_game_state_to_clients_locking (held_by_main : bool)
    (connected_clients : gset websocket) (gs : GameState) : Outcome Broadcast :=
  if decide (connected_clients = ∅) then Returned Idle
  else with_game_state_lock held_by_main
         (send_game_state_to_clients connected_clients gs).

(** ** More scenarios *)

Definition quit_now : Input := mkInput [QUIT] no_keys [].
Definition press_q : Input := mkInput [] (mkKeys false false false true) [].
Definition up_left_none : list pyval := [PyStr "up"; PyStr "left"; PyNone].
Definition restart_message : inbound :=
  Decoded (PyDict [("type", PyStr "restart")]%string).






(** A paddle at the left wall *)
Definition paddle_at_wall : Paddle :=
  mkPaddle (mkRect 0 (SCREEN_HEIGHT - 10 - PADDLE_HEIGHT)
              PADDLE_WIDTH PADDLE_HEIGHT) 8.

(** * Properties *)

(** ** The paddle *)

Section PaddleFacts.

Variable speed : Z.

Lemma apply_control_shift x control :
  apply_control speed x control = x + control_delta speed control.
Proof.
  unfold control_delta, apply_control.
  destruct (py_eq_str control "left"); [lia|].
  destruct (py_eq_str control "right"); lia.
Qed.

Lemma batch_delta_app q1 q2 :
  batch_delta speed (q1 ++ q2) = batch_delta speed q1 + batch_delta speed q2.
Proof. induction q1 as [|c q1 IH]; simpl; [reflexivity | rewrite IH; lia]. Qed.

Lemma drain_controls_eq queue x :
  drain_controls speed queue x = (x + batch_delta speed queue, []).
Proof.
  revert x. induction queue as [|c queue IH]; intros x; simpl.
  - f_equal. lia.
  - rewrite IH, apply_control_shift. f_equal. lia.
Qed.

End PaddleFacts.

Lemma Paddle_update_eq p k gs queue :
  rect_w (paddle_rect p) = PADDLE_WIDTH ->
  let x := clamp_paddle (rect_x (paddle_rect p) + key_delta (paddle_speed p) k
                         + batch_delta (paddle_speed p) queue) in
  Paddle_update p k gs queue
  = (mkPaddle (set_x (paddle_rect p) x) (paddle_speed p), set_paddle_x gs x, []).
Proof.
  destruct p as [[x0 y0 w0 h0] sp], k as [kl kr kr' kq]; simpl; intros ->.
  unfold Paddle_update, key_delta, clamp_paddle; simpl.
  set (d := batch_delta sp queue).
  assert (Hd : forall x, drain_controls sp queue x = (x + d, []))
    by (intros; apply drain_controls_eq).
  destruct kl, kr; simpl; rewrite Hd;
    unfold left, right, set_left, set_right, set_x, SCREEN_WIDTH, PADDLE_WIDTH;
    simpl;
    repeat match goal with
           | |- context [?a <? ?b] =>
               lazymatch a with context [Z.ltb] => fail | _ => idtac end;
               lazymatch b with context [Z.ltb] => fail | _ => idtac end;
               destruct (Z.ltb_spec a b); simpl
           end;
    repeat f_equal; lia.
Qed.

Lemma clamp_paddle_range x :
  0 <= clamp_paddle x <= SCREEN_WIDTH - PADDLE_WIDTH.
Proof. unfold clamp_paddle, SCREEN_WIDTH, PADDLE_WIDTH. lia. Qed.

Lemma Paddle_update_frame p k gs queue :
  exists x,
    Paddle_update p k gs queue
    = (mkPaddle (set_x (paddle_rect p) x) (paddle_speed p), set_paddle_x gs x, []).
Proof.
  unfold Paddle_update.
  set (r0 := if K_LEFT k then _ else _).
  set (r1 := if K_RIGHT k then _ else _).
  rewrite drain_controls_eq.
  assert (Hshape : forall r : Rect, exists x, r = set_x r x)
    by (intros [x y w h]; exists x; reflexivity).
  assert (H1 : exists x, r1 = set_x (paddle_rect p) x).
  { subst r1 r0. destruct (K_LEFT k), (K_RIGHT k); simpl; eauto. }
  destruct H1 as [x1 ->]. simpl.
  unfold left, right, set_left, set_right, set_x; simpl.
  repeat match goal with
         | |- context [if ?c then _ else _] => destruct c; simpl
         end; eauto.
Qed.

(** ** Catches and misses *)

Lemma count_nil f : count f [] = 0.
Proof. reflexivity. Qed.

Lemma count_cons f s l :
  count f (s :: l) = (if f s then 1 else 0) + count f l.
Proof.
  unfold count; simpl. destruct (f s); simpl length; lia.
Qed.

Lemma count_nonneg f l : 0 <= count f l.
Proof. unfold count. lia. Qed.

Lemma score_caught_eq caught gs :
  score_caught caught gs
  = set_score gs (score gs + Z.of_nat (length caught)).
Proof.
  revert gs. induction caught as [|s caught IH]; intros gs.
  - destruct gs; unfold set_score; simpl. f_equal. lia.
  - cbn [score_caught length]. rewrite IH. unfold set_score; simpl.
    f_equal. lia.
Qed.

Lemma miss_loop_eq group gs acc :
  let n := count is_missed group in
  miss_loop group gs acc
  = (mkGameState (paddle_x gs) (squares gs) (score gs) (lives gs - n)
       (game_over gs || ((0 <? n) && (lives gs - n <=? 0))),
     acc ++ List.filter is_missed group).
Proof.
  revert gs acc. induction group as [|s group IH]; intros gs acc.
  - destruct gs; simpl. rewrite count_nil, app_nil_r, Z.sub_0_r.
    simpl. rewrite orb_false_r. reflexivity.
  - cbn zeta. rewrite count_cons. cbn [miss_loop List.filter].
    change (SCREEN_HEIGHT <? top (sq_rect s)) with (is_missed s).
    pose proof (count_nonneg is_missed group) as Hn.
    destruct (is_missed s).
    + rewrite IH. cbn zeta. rewrite <- app_assoc. simpl app.
      f_equal. destruct gs as [px sqs sc lv go]; simpl.
      destruct (Z.leb_spec (lv - 1) 0); simpl; f_equal; try lia.
      all: destruct go; simpl; try reflexivity.
      all: repeat match goal with
             | |- context [?a <? ?b] => destruct (Z.ltb_spec a b); simpl
             | |- context [?a <=? ?b] => destruct (Z.leb_spec a b); simpl
             end; try reflexivity; lia.
    + rewrite IH. cbn zeta. f_equal.
Qed.

Lemma kill_absent square keep rest :
  square ∉ keep -> kill square (keep ++ square :: rest) = keep ++ rest.
Proof.
  induction keep as [|s keep IH]; intros Hnot; simpl.
  - destruct (decide (square = square)); congruence.
  - destruct (decide (s = square)) as [->|Hne].
    + exfalso. apply Hnot. left.
    + f_equal. apply IH. intros Hin. apply Hnot. right. exact Hin.
Qed.

Lemma kill_all_filter f keep l :
  (forall s, s ∈ keep -> f s = false) ->
  kill_all (List.filter f l) (keep ++ l)
  = keep ++ List.filter (fun s => negb (f s)) l.
Proof.
  revert keep. induction l as [|a l IH]; intros keep Hkeep.
  - reflexivity.
  - simpl List.filter. destruct (f a) eqn:Hfa; simpl negb; cbv iota.
    + unfold kill_all; simpl fold_left. rewrite kill_absent.
      * apply IH, Hkeep.
      * intros Hin. apply Hkeep in Hin. congruence.
    + replace (keep ++ a :: l) with ((keep ++ [a]) ++ l)
        by (rewrite <- app_assoc; reflexivity).
      rewrite IH.
      * rewrite <- app_assoc. reflexivity.
      * intros s Hs. apply elem_of_app in Hs as [Hs|Hs]; [auto|].
        apply list_elem_of_singleton in Hs. congruence.
Qed.

Lemma kill_all_missed group :
  kill_all (List.filter is_missed group) group
  = List.filter (fun s => negb (is_missed s)) group.
Proof.
  apply (kill_all_filter is_missed []). intros s Hs. inversion Hs.
Qed.

(** What the block under [if not game_state['game_over']] computes *)
Lemma game_logic_eq st k :
  let p := (Paddle_update (paddle st) k (game_state st) (control_queue st)).1.1 in
  let moved := List.map FallingSquare_update (falling_squares_pygame_group st) in
  let free := List.filter (fun s => negb (is_caught p s)) moved in
  let kept := List.filter (fun s => negb (is_missed s)) free in
  let gs := game_state st in
  let lv := lives gs - count is_missed free in
  game_logic st k
  = mkLoop (mkGameState (rect_x (paddle_rect p)) (List.map square_dict kept)
              (score gs + count (is_caught p) moved) lv
              (game_over gs || (lv <=? 0)))
      [] p kept (square_id_counter st) (running st).
Proof.
  cbv zeta. unfold game_logic, is_caught.
  destruct (Paddle_update_frame (paddle st) k (game_state st) (control_queue st))
    as [x ->].
  cbn [fst snd].
  set (p := mkPaddle _ _).
  set (moved := List.map FallingSquare_update _).
  unfold spritecollide. rewrite partition_as_filter.
  set (free := List.filter _ moved).
  rewrite score_caught_eq, miss_loop_eq. cbv zeta. simpl app.
  rewrite kill_all_missed.
  assert (Hp : rect_x (paddle_rect p) = x) by reflexivity. rewrite Hp.
  pose proof (count_nonneg is_missed free) as Hn.
  set (n := count is_missed free) in *.
  set (c := length (List.filter _ moved)).
  unfold count. fold c.
  clearbody n free c moved p.
  destruct (game_state st) as [px sqs sc lv go]; simpl.
  destruct (Z.leb_spec (lv - n) 0); simpl.
  - rewrite orb_true_r. reflexivity.
  - rewrite andb_false_r, orb_false_r. reflexivity.
Qed.

(** ** The event loop *)

Lemma handle_event_frame st e :
  game_state (handle_event st e) = game_state st
  /\ control_queue (handle_event st e) = control_queue st
  /\ paddle (handle_event st e) = paddle st.
Proof.
  destruct e; simpl; try (repeat split; reflexivity).
  destruct (game_over (game_state st)); simpl; repeat split; reflexivity.
Qed.

Lemma handle_events_frame es st :
  game_state (fold_left handle_event es st) = game_state st
  /\ control_queue (fold_left handle_event es st) = control_queue st
  /\ paddle (fold_left handle_event es st) = paddle st.
Proof.
  revert st. induction es as [|e es IH]; intros st; simpl.
  - repeat split; reflexivity.
  - destruct (IH (handle_event st e)) as (-> & -> & ->).
    apply handle_event_frame.
Qed.

Lemma handle_event_game_over st e :
  game_over (game_state st) = true ->
  falling_squares_pygame_group (handle_event st e)
  = falling_squares_pygame_group st
  /\ square_id_counter (handle_event st e) = square_id_counter st.
Proof.
  intros Hgo. destruct e; simpl; rewrite ?Hgo; simpl; split; reflexivity.
Qed.

Lemma handle_events_game_over es st :
  game_over (game_state st) = true ->
  falling_squares_pygame_group (fold_left handle_event es st)
  = falling_squares_pygame_group st
  /\ square_id_counter (fold_left handle_event es st) = square_id_counter st.
Proof.
  revert st. induction es as [|e es IH]; intros st Hgo; simpl.
  - split; reflexivity.
  - destruct (handle_event_game_over st e Hgo) as [Hg Hc].
    destruct (IH (handle_event st e)) as [-> ->].
    + destruct (handle_event_frame st e) as (-> & _). exact Hgo.
    + split; assumption.
Qed.

Lemma after_events_frame st inp :
  game_state (after_events st inp) = game_state st
  /\ control_queue (after_events st inp) = control_queue st ++ arrivals inp
  /\ paddle (after_events st inp) = paddle st.
Proof.
  unfold after_events.
  destruct (handle_events_frame (events inp) (enqueue st (arrivals inp)))
    as (-> & -> & ->).
  repeat split; reflexivity.
Qed.

(** One iteration, in terms of its three phases *)
Lemma game_tick_unfold st inp :
  game_tick st inp
  = game_over_screen
      (if negb (game_over (game_state st))
       then game_logic (after_events st inp) (keys inp)
       else after_events st inp)
      (keys inp).
Proof.
  unfold game_tick. fold (after_events st inp).
  destruct (after_events_frame st inp) as (-> & _). reflexivity.
Qed.

(** ** Square ids *)

Lemma square_name_inj a b : square_name a = square_name b -> a = b.
Proof.
  unfold square_name. intros H. simpl in H.
  injection H as H. exact (inj pretty _ _ H).
Qed.

Lemma NoDup_map_filter {A B} (f : A -> B) (t : A -> bool) (l : list A) :
  NoDup (List.map f l) -> NoDup (List.map f (List.filter t l)).
Proof.
  induction l as [|a l IH]; simpl; intros Hnd; [exact Hnd|].
  apply NoDup_cons in Hnd as [Hnot Hnd].
  destruct (t a); simpl; [apply NoDup_cons; split|]; auto.
  intros Hin. apply Hnot.
  apply list_elem_of_In, in_map_iff in Hin as (x & Hx & Hin).
  apply list_elem_of_In, in_map_iff. exists x. split; [exact Hx|].
  apply filter_In in Hin. tauto.
Qed.

Lemma ids_ok_filter counter t group :
  ids_ok counter group -> ids_ok counter (List.filter t group).
Proof.
  intros [Hall Hnd]. split.
  - apply List.Forall_forall. intros s Hs. apply filter_In in Hs as [Hs _].
    eapply List.Forall_forall in Hall; eauto.
  - apply NoDup_map_filter, Hnd.
Qed.

Lemma ids_ok_update counter group :
  ids_ok counter group -> ids_ok counter (List.map FallingSquare_update group).
Proof.
  intros [Hall Hnd]. split.
  - apply List.Forall_forall. intros s Hs.
    apply in_map_iff in Hs as (s0 & <- & Hs0).
    eapply List.Forall_forall in Hall; [|exact Hs0]. exact Hall.
  - rewrite List.map_map. simpl. exact Hnd.
Qed.

Lemma ids_ok_spawn counter group dx dy :
  0 <= counter -> ids_ok counter group ->
  ids_ok (counter + 1)
    (group ++ [FallingSquare_init (square_name (counter + 1)) dx dy]).
Proof.
  intros Hc [Hall Hnd]. split.
  - apply List.Forall_forall. intros s Hs. apply in_app_iff in Hs as [Hs|Hs].
    + eapply List.Forall_forall in Hall as (n & Hn & Hid); eauto.
      exists n. split; [lia | exact Hid].
    + destruct Hs as [<-|[]]. exists (counter + 1). split; [lia | reflexivity].
  - rewrite List.map_app. simpl. apply NoDup_app. split; [exact Hnd|].
    split; [|apply NoDup_singleton].
    intros id Hid Hnew. apply list_elem_of_singleton in Hnew. subst id.
    apply list_elem_of_In, in_map_iff in Hid as (s & Hs & Hin).
    eapply List.Forall_forall in Hall as (n & Hn & Hid); eauto.
    rewrite Hid in Hs. apply square_name_inj in Hs. lia.
Qed.

Lemma handle_event_ids st e :
  0 <= square_id_counter st ->
  ids_ok (square_id_counter st) (falling_squares_pygame_group st) ->
  0 <= square_id_counter (handle_event st e)
  /\ ids_ok (square_id_counter (handle_event st e))
       (falling_squares_pygame_group (handle_event st e)).
Proof.
  intros Hc Hids. destruct e; simpl; try (split; assumption).
  destruct (game_over (game_state st)); simpl; [split; assumption|].
  split; [lia | apply ids_ok_spawn; assumption].
Qed.

Lemma handle_events_ids es st :
  0 <= square_id_counter st ->
  ids_ok (square_id_counter st) (falling_squares_pygame_group st) ->
  0 <= square_id_counter (fold_left handle_event es st)
  /\ ids_ok (square_id_counter (fold_left handle_event es st))
       (falling_squares_pygame_group (fold_left handle_event es st)).
Proof.
  revert st. induction es as [|e es IH]; intros st Hc Hids; simpl.
  - split; assumption.
  - destruct (handle_event_ids st e Hc Hids) as [Hc' Hids']. apply IH; assumption.
Qed.

(** ** The loop invariant *)

Lemma game_start_inv : loop_inv game_start.
Proof.
  constructor; try reflexivity; try (vm_compute; intuition congruence).
  split; [apply List.Forall_nil | apply NoDup_nil_2].
Qed.

Lemma playing_tick_inv st inp :
  loop_inv st -> game_over (game_state st) = false ->
  loop_inv (game_logic (after_events st inp) (keys inp)).
Proof.
  intros [Hrect Hspeed Hrange Hlives Hover Hscore Hsq Hc Hids] Hgo.
  destruct (handle_events_ids (events inp) (enqueue st (arrivals inp)) Hc Hids)
    as [Hc' Hids'].
  fold (after_events st inp) in Hc', Hids'.
  rewrite game_logic_eq.
  destruct (after_events_frame st inp) as (-> & -> & ->).
  assert (Hw : rect_w (paddle_rect (paddle st)) = PADDLE_WIDTH)
    by (rewrite Hrect; reflexivity).
  pose proof (Paddle_update_eq (paddle st) (keys inp) (game_state st)
                (control_queue st ++ arrivals inp) Hw) as Hup.
  cbv zeta in Hup |- *. rewrite Hup. cbn [fst snd].
  match goal with
  | |- context [clamp_paddle ?a] =>
      pose proof (clamp_paddle_range a) as Hx; set (x := clamp_paddle a) in *
  end.
  set (p := mkPaddle _ _).
  set (moved := List.map FallingSquare_update _).
  pose proof (count_nonneg is_missed
                (List.filter (fun s => negb (is_caught p s)) moved)).
  pose proof (count_nonneg (is_caught p) moved).
  constructor; simpl.
  - rewrite Hrect. reflexivity.
  - exact Hspeed.
  - exact Hx.
  - lia.
  - rewrite Hgo. reflexivity.
  - lia.
  - reflexivity.
  - exact Hc'.
  - apply ids_ok_filter, ids_ok_filter, ids_ok_update, Hids'.
Qed.

Lemma idle_tick_inv st inp :
  loop_inv st -> game_over (game_state st) = true ->
  loop_inv (after_events st inp).
Proof.
  intros [Hrect Hspeed Hrange Hlives Hover Hscore Hsq Hc Hids] Hgo.
  destruct (after_events_frame st inp) as (Hgs & _ & Hp).
  destruct (handle_events_game_over (events inp) (enqueue st (arrivals inp)) Hgo)
    as [Hg Hcnt].
  fold (after_events st inp) in Hg, Hcnt. simpl in Hg, Hcnt.
  constructor; rewrite ?Hgs, ?Hp, ?Hg, ?Hcnt; assumption.
Qed.

Lemma game_over_screen_inv st k :
  loop_inv st -> loop_inv (game_over_screen st k).
Proof.
  intros Hinv. unfold game_over_screen.
  destruct (game_over (game_state st)); [|exact Hinv].
  destruct (K_r k).
  - destruct Hinv. constructor; simpl;
      first [ reflexivity | assumption
            | split; [apply List.Forall_nil | apply NoDup_nil_2]
            | vm_compute; intuition congruence ].
  - destruct (K_q k); [|exact Hinv].
    destruct Hinv. constructor; assumption.
Qed.

Lemma game_tick_inv st inp : loop_inv st -> loop_inv (game_tick st inp).
Proof.
  intros Hinv. rewrite game_tick_unfold. apply game_over_screen_inv.
  destruct (game_over (game_state st)) eqn:Hgo; simpl.
  - apply idle_tick_inv; assumption.
  - apply playing_tick_inv; assumption.
Qed.

Lemma game_loop_inv inputs st : loop_inv st -> loop_inv (game_loop st inputs).
Proof.
  revert st. induction inputs as [|inp inputs IH]; intros st Hinv; simpl.
  - exact Hinv.
  - destruct (running st); [apply IH, game_tick_inv, Hinv | exact Hinv].
Qed.

Lemma game_inv inputs : loop_inv (game inputs).
Proof. apply game_loop_inv, game_start_inv. Qed.

(** ** One iteration, case by case *)

Lemma count_filter f g l :
  count g (List.filter f l) = count (fun s => f s && g s) l.
Proof.
  induction l as [|s l IH]; [reflexivity|].
  simpl List.filter. destruct (f s) eqn:Hf.
  - rewrite !count_cons, Hf, IH. reflexivity.
  - rewrite count_cons, Hf, IH. simpl. lia.
Qed.

Lemma game_over_screen_keep st k :
  K_r k = false ->
  game_state (game_over_screen st k) = game_state st
  /\ control_queue (game_over_screen st k) = control_queue st
  /\ paddle (game_over_screen st k) = paddle st
  /\ falling_squares_pygame_group (game_over_screen st k)
     = falling_squares_pygame_group st.
Proof.
  intros Hr. unfold game_over_screen. rewrite Hr.
  destruct (game_over (game_state st)), (K_q k); repeat split; reflexivity.
Qed.

Lemma game_over_screen_restart st k :
  game_over (game_state st) = true -> K_r k = true ->
  game_state (game_over_screen st k)
  = mkGameState (SCREEN_WIDTH / 2 - PADDLE_WIDTH / 2) [] 0 INITIAL_LIVES false
  /\ control_queue (game_over_screen st k) = control_queue st
  /\ falling_squares_pygame_group (game_over_screen st k) = [].
Proof.
  intros Hgo Hr. unfold game_over_screen. rewrite Hgo, Hr.
  repeat split; reflexivity.
Qed.

(** An iteration that starts with the game over and without [R] *)
Lemma idle_tick_eq st inp :
  game_over (game_state st) = true -> K_r (keys inp) = false ->
  game_state (game_tick st inp) = game_state st
  /\ control_queue (game_tick st inp) = control_queue st ++ arrivals inp
  /\ paddle (game_tick st inp) = paddle st
  /\ falling_squares_pygame_group (game_tick st inp)
     = falling_squares_pygame_group st.
Proof.
  intros Hgo Hr. rewrite game_tick_unfold, Hgo. simpl.
  destruct (game_over_screen_keep (after_events st inp) (keys inp) Hr)
    as (-> & -> & -> & ->).
  destruct (after_events_frame st inp) as (-> & -> & ->).
  destruct (handle_events_game_over (events inp) (enqueue st (arrivals inp)) Hgo)
    as [Hg _].
  repeat split; try reflexivity. exact Hg.
Qed.

(** An iteration that starts with the game running and without [R] *)
Lemma playing_tick_eq st inp :
  game_over (game_state st) = false -> K_r (keys inp) = false ->
  let p := paddle_in_play st inp in
  let moved := squares_in_play st inp in
  let kept := List.filter (fun s => negb (is_missed s))
                (List.filter (fun s => negb (is_caught p s)) moved) in
  let lv := lives (game_state st)
            - count (fun s => negb (is_caught p s) && is_missed s) moved in
  game_state (game_tick st inp)
  = mkGameState (rect_x (paddle_rect p)) (List.map square_dict kept)
      (score (game_state st) + count (is_caught p) moved) lv (lv <=? 0)
  /\ control_queue (game_tick st inp) = []
  /\ paddle (game_tick st inp) = p
  /\ falling_squares_pygame_group (game_tick st inp) = kept.
Proof.
  intros Hgo Hr. cbv zeta. rewrite game_tick_unfold, Hgo. simpl negb. cbv iota.
  destruct (game_over_screen_keep
              (game_logic (after_events st inp) (keys inp)) (keys inp) Hr)
    as (-> & -> & -> & ->).
  rewrite game_logic_eq. cbn [game_state control_queue paddle
                              falling_squares_pygame_group].
  unfold paddle_in_play, squares_in_play.
  destruct (after_events_frame st inp) as (-> & -> & ->).
  rewrite Hgo, count_filter. repeat split; reflexivity.
Qed.

(** The paddle after [all_sprites.update()], from a state of the game *)
Lemma paddle_in_play_eq st inp :
  loop_inv st ->
  paddle_in_play st inp
  = mkPaddle
      (mkRect (clamp_paddle (paddle_x (game_state st) + key_delta 8 (keys inp)
                             + batch_delta 8 (control_queue st ++ arrivals inp)))
         (SCREEN_HEIGHT - 10 - PADDLE_HEIGHT) PADDLE_WIDTH PADDLE_HEIGHT) 8.
Proof.
  intros Hinv. unfold paddle_in_play.
  assert (Hw : rect_w (paddle_rect (paddle st)) = PADDLE_WIDTH)
    by (rewrite (inv_rect st Hinv); reflexivity).
  pose proof (Paddle_update_eq (paddle st) (keys inp) (game_state st)
                (control_queue st ++ arrivals inp) Hw) as Hup.
  cbv zeta in Hup. rewrite Hup. cbn [fst].
  rewrite (inv_speed st Hinv), (inv_rect st Hinv). reflexivity.
Qed.

Lemma restart_tick_eq st inp :
  game_over (game_state st) = true -> K_r (keys inp) = true ->
  game_state (game_tick st inp)
  = mkGameState (SCREEN_WIDTH / 2 - PADDLE_WIDTH / 2) [] 0 INITIAL_LIVES false
  /\ control_queue (game_tick st inp) = control_queue st ++ arrivals inp
  /\ falling_squares_pygame_group (game_tick st inp) = [].
Proof.
  intros Hgo Hr. rewrite game_tick_unfold, Hgo. simpl.
  destruct (after_events_frame st inp) as (Hgs & Hq & _).
  destruct (game_over_screen_restart (after_events st inp) (keys inp))
    as (-> & -> & ->); [rewrite Hgs; exact Hgo | exact Hr |].
  rewrite Hq. repeat split; reflexivity.
Qed.

(** ** Paddle position (C8) *)

(** C8. Whatever the controls, the keys and the events of the successive
    iterations are, the published [paddle_x] lies in
    [[0, SCREEN_WIDTH - PADDLE_WIDTH]] after every iteration. *)
Theorem C8_paddle_x_within_screen (inputs : list Input) :
  0 <= paddle_x (game_state (game inputs)) <= SCREEN_WIDTH - PADDLE_WIDTH.
Proof. apply inv_range, game_inv. Qed.

(** ** The squares while the game is over (C10) *)

(** C10. From a state in which the game is over, iterations without [R]
    leave the published [squares] and the sprite group exactly as they
    were (nothing is moved, spawned or removed) and the game stays over;
    an iteration with [R] empties the list. *)
Theorem C10_squares_frozen_while_game_over (st : Loop) (inputs : list Input) :
  game_over (game_state st) = true ->
  (Forall (fun inp => K_r (keys inp) = false) inputs ->
   squares (game_state (game_loop st inputs)) = squares (game_state st)
   /\ falling_squares_pygame_group (game_loop st inputs)
      = falling_squares_pygame_group st
   /\ game_over (game_state (game_loop st inputs)) = true)
  /\ (forall inp, K_r (keys inp) = true ->
      squares (game_state (game_tick st inp)) = []
      /\ falling_squares_pygame_group (game_tick st inp) = []).
Proof.
  intros Hgo. split.
  - revert st Hgo. induction inputs as [|inp inputs IH]; intros st Hgo Hall.
    + repeat split; try reflexivity; exact Hgo.
    + apply Forall_cons in Hall as [Hr Hall]. simpl.
      destruct (running st); [|repeat split; try reflexivity; exact Hgo].
      destruct (idle_tick_eq st inp Hgo Hr) as (Hgs & _ & _ & Hg).
      destruct (IH (game_tick st inp)) as (-> & -> & ->);
        [rewrite Hgs; exact Hgo | exact Hall |].
      rewrite Hgs, Hg. repeat split; reflexivity.
  - intros inp Hr.
    destruct (restart_tick_eq st inp Hgo Hr) as (-> & _ & ->).
    split; reflexivity.
Qed.

Lemma C10_squares_frozen_while_game_over_witness :
  game_over (game_state (game lost_game)) = true
  /\ squares (game_state (game_loop (game lost_game) [left_arrives; idle]))
     = squares (game_state (game lost_game))
  /\ squares (game_state (game_tick (game lost_game) press_r)) = [].
Proof.
  assert (Hgo : game_over (game_state (game lost_game)) = true)
    by (vm_compute; reflexivity).
  destruct (C10_squares_frozen_while_game_over
              (game lost_game) [left_arrives; idle] Hgo) as [Hkeep Hclear].
  split; [exact Hgo|]. split.
  - apply Hkeep. repeat constructor.
  - apply (Hclear press_r). reflexivity.
Defined.

(** ** Spawning (C9) *)

Lemma randrange_range start stop draw :
  start < stop -> start <= randrange start stop draw <= stop - 1.
Proof.
  intros Hlt. unfold randrange.
  pose proof (Z.mod_pos_bound draw (stop - start)). lia.
Qed.

Lemma randrange_outcomes_In start stop x :
  x ∈ randrange_outcomes start stop <-> start <= x <= stop - 1.
Proof.
  unfold randrange_outcomes. rewrite list_elem_of_In, in_map_iff. split.
  - intros (k & <- & Hk). apply in_seq in Hk. lia.
  - intros Hx. exists (Z.to_nat (x - start)). split; [lia|].
    apply in_seq. lia.
Qed.

Lemma randrange_outcomes_NoDup start stop :
  NoDup (randrange_outcomes start stop).
Proof.
  unfold randrange_outcomes. apply NoDup_ListNoDup, Finite.Injective_map_NoDup.
  - intros a b Hab. lia.
  - apply List.seq_NoDup.
Qed.

(** C9, as stated, fails: [randrange] excludes its upper bound, so no draw
    puts a square at [x = SCREEN_WIDTH - SQUARE_SIZE]. *)
Lemma C9_right_edge_never_drawn :
  ((SCREEN_WIDTH - SQUARE_SIZE)
     ∉ randrange_outcomes 0 (SCREEN_WIDTH - SQUARE_SIZE))
  /\ ~ (exists draw_x draw_y,
          rect_x (sq_rect (FallingSquare_init "sq_1" draw_x draw_y))
          = SCREEN_WIDTH - SQUARE_SIZE).
Proof.
  split.
  - rewrite randrange_outcomes_In. lia.
  - intros (dx & dy & Hx). simpl in Hx.
    pose proof (randrange_range 0 (SCREEN_WIDTH - SQUARE_SIZE) dx).
    unfold SCREEN_WIDTH, SQUARE_SIZE in *. lia.
Qed.

(** C9, amended. A spawned square has [x] in the integer range
    [[0, SCREEN_WIDTH - SQUARE_SIZE - 1]]: [x] is the draw reduced modulo
    [SCREEN_WIDTH - SQUARE_SIZE], every value of the range is the image of
    itself, and the range lists each value once (a uniform draw gives a
    uniform [x]).  Its [y] lies in [[-100, -SQUARE_SIZE - 1]], so the whole
    square is above the visible area, it carries the id it was given, and
    the ids of the squares in the group are pairwise distinct once the
    events of an iteration are handled. *)
Theorem C9_spawned_square (square_id : string) (draw_x draw_y : Z)
    (inputs : list Input) (inp : Input) :
  0 <= rect_x (sq_rect (FallingSquare_init square_id draw_x draw_y))
    <= SCREEN_WIDTH - SQUARE_SIZE - 1
  /\ rect_x (sq_rect (FallingSquare_init square_id draw_x draw_y))
     = draw_x mod (SCREEN_WIDTH - SQUARE_SIZE)
  /\ (0 <= draw_x <= SCREEN_WIDTH - SQUARE_SIZE - 1 ->
      rect_x (sq_rect (FallingSquare_init square_id draw_x draw_y)) = draw_x)
  /\ rect_x (sq_rect (FallingSquare_init square_id draw_x draw_y))
     ∈ randrange_outcomes 0 (SCREEN_WIDTH - SQUARE_SIZE)
  /\ NoDup (randrange_outcomes 0 (SCREEN_WIDTH - SQUARE_SIZE))
  /\ -100 <= rect_y (sq_rect (FallingSquare_init square_id draw_x draw_y))
     <= - SQUARE_SIZE - 1
  /\ bottom (sq_rect (FallingSquare_init square_id draw_x draw_y)) < 0
  /\ sq_id (FallingSquare_init square_id draw_x draw_y) = square_id
  /\ NoDup (List.map sq_id
              (falling_squares_pygame_group (after_events (game inputs) inp))).
Proof.
  pose proof (randrange_range 0 (SCREEN_WIDTH - SQUARE_SIZE) draw_x) as Hx.
  pose proof (randrange_range (-100) (- SQUARE_SIZE) draw_y) as Hy.
  assert (Hxe : rect_x (sq_rect (FallingSquare_init square_id draw_x draw_y))
                = randrange 0 (SCREEN_WIDTH - SQUARE_SIZE) draw_x) by reflexivity.
  assert (Hye : rect_y (sq_rect (FallingSquare_init square_id draw_x draw_y))
                = randrange (-100) (- SQUARE_SIZE) draw_y) by reflexivity.
  assert (Hbe : bottom (sq_rect (FallingSquare_init square_id draw_x draw_y))
                = randrange (-100) (- SQUARE_SIZE) draw_y + SQUARE_SIZE)
    by reflexivity.
  rewrite Hxe, Hye, Hbe. unfold SCREEN_WIDTH, SQUARE_SIZE in *.
  split; [lia|].
  split; [unfold randrange; rewrite Z.sub_0_r; reflexivity|].
  split; [intros Hd; unfold randrange; rewrite Z.sub_0_r, Z.mod_small; lia|].
  split; [apply randrange_outcomes_In; lia|].
  split; [apply randrange_outcomes_NoDup|].
  split; [lia|]. split; [lia|]. split; [reflexivity|].
  pose proof (game_inv inputs) as Hinv.
  apply (handle_events_ids (events inp) (enqueue (game inputs) (arrivals inp))).
  - apply (inv_counter _ Hinv).
  - apply (inv_ids _ Hinv).
Qed.

Lemma C9_spawned_square_witness :
  0 <= 769 <= SCREEN_WIDTH - SQUARE_SIZE - 1
  /\ rect_x (sq_rect (FallingSquare_init "sq_1" 769 0)) = 769
  /\ NoDup (List.map sq_id
              (falling_squares_pygame_group
                 (after_events (game first_spawn) (spawn_left 2)))).
Proof.
  destruct (C9_spawned_square "sq_1" 769 0 first_spawn (spawn_left 2))
    as (_ & _ & Hdraw & _ & _ & _ & _ & _ & Hids).
  assert (Hr : 0 <= 769 <= SCREEN_WIDTH - SQUARE_SIZE - 1)
    by (unfold SCREEN_WIDTH, SQUARE_SIZE; lia).
  split; [exact Hr|]. split; [exact (Hdraw Hr) | exact Hids].
Defined.

(** ** The websocket handler (C3) *)

Lemma receive_loop_app before rest queue :
  (receive_loop before queue).1.2 = None ->
  receive_loop (before ++ rest) queue
  = receive_loop rest (receive_loop before queue).1.1.
Proof.
  revert queue. induction before as [|m before IH]; intros queue Hok.
  - reflexivity.
  - destruct m as [text|data]; simpl in *; [discriminate|].
    destruct (on_message data queue) as [e|queue']; [discriminate|].
    apply IH, Hok.
Qed.

Lemma unregister_after_register ws clients :
  unregister ws (register ws clients) = inr (clients ∖ {[ws]}).
Proof.
  unfold unregister, register.
  destruct (decide (ws ∈ clients ∪ {[ws]})) as [_|Hnot].
  - f_equal. apply set_eq. intros x.
    rewrite !elem_of_difference, elem_of_union. tauto.
  - exfalso. apply Hnot, elem_of_union. right. apply elem_of_singleton.
    reflexivity.
Qed.

(** C3, as stated, fails: after a frame that does not parse, the [left]
    control that follows is never read (an ingest loop that skipped the
    bad frame would queue it) and the client is no longer registered. *)
Lemma C3_malformed_message_ends_handler :
  h_caught (websocket_handler 1%nat bad_then_left ∅ []) = Some JSONDecodeError
  /\ h_queue (websocket_handler 1%nat bad_then_left ∅ []) = []
  /\ h_unread (websocket_handler 1%nat bad_then_left ∅ [])
     = [control_message "left"]
  /\ h_clients (websocket_handler 1%nat bad_then_left ∅ []) = inr ∅
  /\ spec_receive_loop bad_then_left [] = [PyStr "left"].
Proof.
  repeat split; reflexivity.
Qed.

(** C3, amended. A message that fails to decode ends the handler: the
    controls of the messages read before it are in the queue, the exception
    is caught outside the reading loop, the messages after it are never
    read, and the [finally] clause unregisters the client. *)
Theorem C3_decode_failure_ends_handler (ws : websocket)
    (before after : list inbound) (text : string)
    (clients : gset websocket) (queue : list pyval) :
  (receive_loop before queue).1.2 = None ->
  h_caught (websocket_handler ws (before ++ Undecodable text :: after)
              clients queue) = Some JSONDecodeError
  /\ h_queue (websocket_handler ws (before ++ Undecodable text :: after)
                clients queue) = (receive_loop before queue).1.1
  /\ h_unread (websocket_handler ws (before ++ Undecodable text :: after)
                 clients queue) = after
  /\ h_clients (websocket_handler ws (before ++ Undecodable text :: after)
                  clients queue) = inr (clients ∖ {[ws]}).
Proof.
  intros Hok. unfold websocket_handler.
  rewrite (receive_loop_app before _ queue Hok). simpl.
  rewrite unregister_after_register. repeat split; reflexivity.
Qed.

Lemma C3_decode_failure_ends_handler_witness :
  (receive_loop [control_message "right"] []).1.2 = None
  /\ h_queue (websocket_handler 1%nat
                ([control_message "right"] ++ Undecodable "{"
                 :: [control_message "left"]) {[2%nat]} [])
     = [PyStr "right"]
  /\ h_unread (websocket_handler 1%nat
                 ([control_message "right"] ++ Undecodable "{"
                  :: [control_message "left"]) {[2%nat]} [])
     = [control_message "left"].
Proof.
  destruct (C3_decode_failure_ends_handler 1%nat [control_message "right"]
              [control_message "left"] "{" {[2%nat]} [] eq_refl)
    as (_ & Hq & Hu & _).
  split; [reflexivity|]. split; [exact Hq | exact Hu].
Defined.

(** * Further properties *)

(** ** [Paddle.update] *)

Lemma control_delta_not_move speed control :
  is_move control = false -> control_delta speed control = 0.
Proof.
  unfold is_move, control_delta, apply_control.
  destruct (py_eq_str control "left"), (py_eq_str control "right");
    simpl; intros H; try discriminate. reflexivity.
Qed.

Lemma batch_delta_moves speed queue :
  batch_delta speed (List.filter is_move queue) = batch_delta speed queue.
Proof.
  induction queue as [|c queue IH]; [reflexivity|].
  simpl List.filter. destruct (is_move c) eqn:Hc; simpl; rewrite IH.
  - reflexivity.
  - rewrite (control_delta_not_move speed c Hc). lia.
Qed.

Lemma batch_delta_perm speed q1 q2 :
  q1 ≡ₚ q2 -> batch_delta speed q1 = batch_delta speed q2.
Proof.
  induction 1 as [|c q1 q2 _ IH|c d q|q1 q2 q3 _ IH1 _ IH2]; simpl.
  - reflexivity.
  - rewrite IH. reflexivity.
  - lia.
  - congruence.
Qed.

(** [Paddle.update] reads the queue only through the sum of its moves. *)
Lemma Paddle_update_batch p k gs q1 q2 :
  batch_delta (paddle_speed p) q1 = batch_delta (paddle_speed p) q2 ->
  Paddle_update p k gs q1 = Paddle_update p k gs q2.
Proof.
  intros Heq. unfold Paddle_update. rewrite !drain_controls_eq, Heq.
  reflexivity.
Qed.

(** X1. [Paddle.update] takes every control out of the queue, whatever it
    is, and the controls other than ['left'] and ['right'] (another string,
    [None], a number, ...) have no effect: the result is the one of the
    queue with only its moves. *)
Theorem X1_unknown_controls_consumed_and_ignored (p : Paddle) (k : Keys)
    (gs : GameState) (queue : list pyval) :
  (Paddle_update p k gs queue).2 = []
  /\ Paddle_update p k gs queue
     = Paddle_update p k gs (List.filter is_move queue).
Proof.
  split.
  - destruct (Paddle_update_frame p k gs queue) as [x ->]. reflexivity.
  - apply Paddle_update_batch. symmetry. apply batch_delta_moves.
Qed.

(** X2. Within one batch the order of the controls does not matter: two
    queues that hold the same controls in different orders leave the paddle
    at the same place. *)
Theorem X2_batch_order_irrelevant (p : Paddle) (k : Keys) (gs : GameState)
    (q1 q2 : list pyval) :
  q1 ≡ₚ q2 -> Paddle_update p k gs q1 = Paddle_update p k gs q2.
Proof. intros Hperm. apply Paddle_update_batch, batch_delta_perm, Hperm. Qed.

Lemma X2_batch_order_irrelevant_witness :
  Paddle_update (paddle game_start) no_keys (game_state game_start)
    [PyStr "left"; PyStr "right"; PyStr "left"]
  = Paddle_update (paddle game_start) no_keys (game_state game_start)
      [PyStr "left"; PyStr "left"; PyStr "right"].
Proof.
  apply (X2_batch_order_irrelevant (paddle game_start) no_keys
           (game_state game_start)).
  apply perm_skip, perm_swap.
Defined.

(** ** The squares between two iterations *)

Lemma handle_event_group_Forall (P : FallingSquare -> Prop) st e :
  (forall id dx dy, P (FallingSquare_init id dx dy)) ->
  Forall P (falling_squares_pygame_group st) ->
  Forall P (falling_squares_pygame_group (handle_event st e)).
Proof.
  intros Hnew Hall. destruct e; simpl; try exact Hall.
  destruct (game_over (game_state st)); simpl; [exact Hall|].
  apply Forall_app. split; [exact Hall|]. apply Forall_singleton, Hnew.
Qed.

Lemma after_events_group_Forall (P : FallingSquare -> Prop) st inp :
  (forall id dx dy, P (FallingSquare_init id dx dy)) ->
  Forall P (falling_squares_pygame_group st) ->
  Forall P (falling_squares_pygame_group (after_events st inp)).
Proof.
  intros Hnew. unfold after_events.
  change (falling_squares_pygame_group st)
    with (falling_squares_pygame_group (enqueue st (arrivals inp))).
  generalize (enqueue st (arrivals inp)) as st0.
  induction (events inp) as [|e es IH]; intros st0 Hall; simpl.
  - exact Hall.
  - apply IH, handle_event_group_Forall; assumption.
Qed.

(** The group after an iteration: emptied by a restart, untouched while the
    game is over, or the moved squares that are neither caught nor missed. *)
Lemma tick_group_cases st inp :
  falling_squares_pygame_group (game_tick st inp) = []
  \/ (game_over (game_state st) = true
      /\ falling_squares_pygame_group (game_tick st inp)
         = falling_squares_pygame_group st)
  \/ (game_over (game_state st) = false
      /\ falling_squares_pygame_group (game_tick st inp)
         = List.filter (fun s => negb (is_missed s))
             (List.filter (fun s => negb (is_caught (paddle_in_play st inp) s))
                (squares_in_play st inp))).
Proof.
  destruct (game_over (game_state st)) eqn:Hgo.
  - destruct (K_r (keys inp)) eqn:Hr.
    + left. apply (restart_tick_eq st inp Hgo Hr).
    + right. left. split; [reflexivity|]. apply (idle_tick_eq st inp Hgo Hr).
  - destruct (K_r (keys inp)) eqn:Hr.
    + rewrite game_tick_unfold, Hgo. simpl negb. cbv iota.
      unfold game_over_screen. rewrite Hr.
      destruct (game_over (game_state (game_logic _ _))); [left; reflexivity|].
      right. right. split; [reflexivity|].
      rewrite game_logic_eq. cbn [falling_squares_pygame_group].
      unfold paddle_in_play, squares_in_play.
      destruct (after_events_frame st inp) as (-> & -> & ->). reflexivity.
    + right. right. split; [reflexivity|].
      apply (playing_tick_eq st inp Hgo Hr).
Qed.

Lemma FallingSquare_init_fresh id dx dy :
  square_fresh_or_ok (FallingSquare_init id dx dy).
Proof.
  pose proof (randrange_range 0 (SCREEN_WIDTH - SQUARE_SIZE) dx) as Hx.
  pose proof (randrange_range (-100) (- SQUARE_SIZE) dy) as Hy.
  unfold square_fresh_or_ok; simpl.
  unfold SCREEN_WIDTH, SQUARE_SIZE, SCREEN_HEIGHT in *.
  repeat split; try reflexivity; lia.
Qed.

Lemma square_ok_fresh s : square_ok s -> square_fresh_or_ok s.
Proof.
  unfold square_ok, square_fresh_or_ok, FALL_SPEED.
  intros (? & ? & ? & ? & ?). repeat split; try assumption; lia.
Qed.

Lemma square_ok_update s :
  square_fresh_or_ok s -> is_missed (FallingSquare_update s) = false ->
  square_ok (FallingSquare_update s).
Proof.
  unfold square_ok, square_fresh_or_ok, is_missed.
  intros (Hw & Hh & Hs & Hx & Hy) Hmiss. apply Z.ltb_ge in Hmiss.
  destruct s as [[x y w h] sp id]; simpl in *. unfold top in Hmiss.
  simpl in Hmiss. subst. unfold FALL_SPEED in *.
  repeat split; try reflexivity; lia.
Qed.

Lemma squares_in_play_fresh st inp :
  Forall square_ok (falling_squares_pygame_group st) ->
  forall s, In s (squares_in_play st inp) ->
  exists s0, s = FallingSquare_update s0 /\ square_fresh_or_ok s0.
Proof.
  intros Hall s Hs. unfold squares_in_play in Hs.
  apply in_map_iff in Hs as (s0 & <- & Hs0). exists s0. split; [reflexivity|].
  assert (Hfresh : Forall square_fresh_or_ok
                     (falling_squares_pygame_group (after_events st inp))).
  { apply after_events_group_Forall; [apply FallingSquare_init_fresh|].
    eapply Forall_impl; [exact Hall | apply square_ok_fresh]. }
  eapply List.Forall_forall in Hfresh; eauto.
Qed.

Lemma squares_ok_tick st inp :
  Forall square_ok (falling_squares_pygame_group st) ->
  Forall square_ok (falling_squares_pygame_group (game_tick st inp)).
Proof.
  intros Hall.
  destruct (tick_group_cases st inp) as [-> | [[_ ->] | [_ ->]]].
  - apply Forall_nil_2.
  - exact Hall.
  - apply List.Forall_forall. intros s Hs.
    apply filter_In in Hs as [Hs Hmiss]. apply filter_In in Hs as [Hs _].
    destruct (squares_in_play_fresh st inp Hall s Hs) as (s0 & -> & Hs0).
    apply square_ok_update; [exact Hs0|].
    destruct (is_missed (FallingSquare_update s0)); [discriminate | reflexivity].
Qed.

Lemma squares_ok_loop inputs st :
  Forall square_ok (falling_squares_pygame_group st) ->
  Forall square_ok (falling_squares_pygame_group (game_loop st inputs)).
Proof.
  revert st. induction inputs as [|inp inputs IH]; intros st Hall; simpl.
  - exact Hall.
  - destruct (running st); [apply IH, squares_ok_tick, Hall | exact Hall].
Qed.

Lemma squares_ok_game inputs :
  Forall square_ok (falling_squares_pygame_group (game inputs)).
Proof. apply squares_ok_loop. apply Forall_nil_2. Qed.

(** X3. Every square of the published list is a dictionary with the keys
    [x], [y] and [id], in that order, whose [x] lies in
    [[0, SCREEN_WIDTH - SQUARE_SIZE - 1]], whose [y] lies in
    [[-100 + FALL_SPEED, SCREEN_HEIGHT]] (a square lower than that has been
    removed before the list is published) and whose id is [sq_n] for an [n]
    between 1 and the id counter. *)
Theorem X3_published_squares_in_range (inputs : list Input) (d : pyval) :
  d ∈ squares (game_state (game inputs)) ->
  exists x y n,
    d = PyDict [("x", PyInt x); ("y", PyInt y);
                ("id", PyStr (square_name n))]%string
    /\ 0 <= x <= SCREEN_WIDTH - SQUARE_SIZE - 1
    /\ -100 + FALL_SPEED <= y <= SCREEN_HEIGHT
    /\ 1 <= n <= square_id_counter (game inputs).
Proof.
  pose proof (game_inv inputs) as Hinv.
  rewrite (inv_squares _ Hinv). intros Hd.
  apply list_elem_of_In, in_map_iff in Hd as (s & <- & Hs).
  pose proof (squares_ok_game inputs) as Hok.
  eapply List.Forall_forall in Hok as (_ & _ & _ & Hx & Hy); [|exact Hs].
  destruct (inv_ids _ Hinv) as [Hids _].
  eapply List.Forall_forall in Hids as (n & Hn & Hid); [|exact Hs].
  exists (rect_x (sq_rect s)), (rect_y (sq_rect s)), n.
  unfold square_dict. rewrite Hid. repeat split; try assumption; lia.
Qed.

Lemma X3_published_squares_in_range_witness :
  exists x y n,
    PyDict [("x", PyInt 0); ("y", PyInt (-28)); ("id", PyStr "sq_1")]%string
    = PyDict [("x", PyInt x); ("y", PyInt y);
              ("id", PyStr (square_name n))]%string
    /\ 0 <= x <= SCREEN_WIDTH - SQUARE_SIZE - 1
    /\ -100 + FALL_SPEED <= y <= SCREEN_HEIGHT
    /\ 1 <= n <= square_id_counter (game first_spawn).
Proof.
  apply (X3_published_squares_in_range first_spawn).
  vm_compute. left.
Defined.

(** ** Score, ids and the id counter *)

(** X4. The score is never negative, and an iteration in which [R] is not
    pressed never lowers it, whether the game is running or over. *)
Theorem X4_score_never_decreases (inputs : list Input) (inp : Input) :
  K_r (keys inp) = false ->
  0 <= score (game_state (game inputs))
       <= score (game_state (game_tick (game inputs) inp)).
Proof.
  intros Hr. split; [apply (inv_score _ (game_inv inputs))|].
  destruct (game_over (game_state (game inputs))) eqn:Hgo.
  - destruct (idle_tick_eq _ inp Hgo Hr) as (-> & _). lia.
  - destruct (playing_tick_eq _ inp Hgo Hr) as (-> & _). simpl.
    pose proof (count_nonneg (is_caught (paddle_in_play (game inputs) inp))
                  (squares_in_play (game inputs) inp)). lia.
Qed.

Lemma X4_score_never_decreases_witness :
  K_r (keys idle) = false
  /\ 0 <= score (game_state (game catch_run))
          <= score (game_state (game_tick (game catch_run) idle)).
Proof.
  split; [reflexivity|].
  apply (X4_score_never_decreases catch_run idle). reflexivity.
Defined.

(** X5. The ids of the published squares are pairwise distinct. *)
Theorem X5_published_ids_distinct (inputs : list Input) :
  NoDup (List.map published_id (squares (game_state (game inputs)))).
Proof.
  pose proof (game_inv inputs) as Hinv.
  rewrite (inv_squares _ Hinv), List.map_map.
  destruct (inv_ids _ Hinv) as [_ Hnd].
  change (NoDup (List.map (fun s => PyStr (sq_id s))
                   (falling_squares_pygame_group (game inputs)))).
  rewrite <- (List.map_map sq_id PyStr).
  apply NoDup_ListNoDup, Finite.Injective_map_NoDup.
  - intros a b Hab. congruence.
  - apply NoDup_ListNoDup, Hnd.
Qed.

Lemma handle_event_counter st e :
  square_id_counter (handle_event st e)
  = square_id_counter st
    + (if game_over (game_state st) then 0 else spawn_count [e]).
Proof.
  destruct e; simpl; destruct (game_over (game_state st)); simpl;
    unfold spawn_count; simpl; lia.
Qed.

Lemma handle_events_counter es st :
  square_id_counter (fold_left handle_event es st)
  = square_id_counter st
    + (if game_over (game_state st) then 0 else spawn_count es).
Proof.
  revert st. induction es as [|e es IH]; intros st; simpl.
  - destruct (game_over (game_state st)); unfold spawn_count; simpl; lia.
  - rewrite IH, handle_event_counter.
    destruct (handle_event_frame st e) as (-> & _).
    destruct (game_over (game_state st)); [lia|].
    unfold spawn_count. simpl. destruct (is_spawn e); simpl length; lia.
Qed.

Lemma game_over_screen_counter st k :
  square_id_counter (game_over_screen st k) = square_id_counter st.
Proof.
  unfold game_over_screen.
  destruct (game_over (game_state st)), (K_r k), (K_q k); reflexivity.
Qed.

(** X6. The id counter grows by one for each timer event handled while
    the game is running and stays as it is while the game is over; no
    iteration lowers it, the restart included, so an id is never issued
    twice in a run. *)
Theorem X6_id_counter_counts_spawns (st : Loop) (inp : Input) :
  square_id_counter (game_tick st inp)
  = square_id_counter st
    + (if game_over (game_state st) then 0 else spawn_count (events inp)).
Proof.
  rewrite game_tick_unfold, game_over_screen_counter.
  assert (Hc : square_id_counter (after_events st inp)
               = square_id_counter st
                 + (if game_over (game_state st) then 0
                    else spawn_count (events inp))).
  { unfold after_events. rewrite handle_events_counter. reflexivity. }
  destruct (game_over (game_state st)); simpl; [exact Hc|].
  rewrite game_logic_eq. exact Hc.
Qed.

(** ** Restart and quit *)

Lemma running_handle_events es st :
  running (fold_left handle_event es st)
  = running st && negb (existsb is_quit es).
Proof.
  revert st. induction es as [|e es IH]; intros st; simpl.
  - rewrite andb_true_r. reflexivity.
  - rewrite IH. destruct e; simpl.
    + rewrite andb_false_r. reflexivity.
    + destruct (game_over (game_state st)); reflexivity.
    + reflexivity.
Qed.

(** X7. A restart is a full reset whatever the state was: when the game
    is over and [R] is pressed, the iteration leaves the state in which the
    loop started (score 0, all lives, no square, the paddle in the centre),
    except that the control queue keeps its content, the id counter keeps
    its value and a [QUIT] event of the batch still stops the loop. *)
Theorem X7_restart_resets_everything (st : Loop) (inp : Input) :
  game_over (game_state st) = true ->
  K_r (keys inp) = true ->
  game_tick st inp
  = mkLoop (game_state game_start) (control_queue st ++ arrivals inp)
      (paddle game_start) [] (square_id_counter st)
      (running st && negb (existsb is_quit (events inp))).
Proof.
  intros Hgo Hr. rewrite game_tick_unfold, Hgo. simpl.
  destruct (after_events_frame st inp) as (Hgs & Hq & _).
  destruct (handle_events_game_over (events inp) (enqueue st (arrivals inp)) Hgo)
    as [_ Hc].
  fold (after_events st inp) in Hc. simpl in Hc.
  unfold game_over_screen. rewrite Hgs, Hgo, Hr, Hq, Hc.
  unfold after_events. rewrite running_handle_events. reflexivity.
Qed.

Lemma X7_restart_resets_everything_witness :
  game_over (game_state (game lost_game)) = true
  /\ K_r (keys press_r) = true
  /\ game_state (game_tick (game lost_game) press_r) = game_state game_start
  /\ square_id_counter (game_tick (game lost_game) press_r) = 6.
Proof.
  assert (Hgo : game_over (game_state (game lost_game)) = true)
    by (vm_compute; reflexivity).
  pose proof (X7_restart_resets_everything (game lost_game) press_r Hgo eq_refl)
    as Heq.
  split; [exact Hgo|]. split; [reflexivity|].
  rewrite Heq. split; [reflexivity | vm_compute; reflexivity].
Defined.

Lemma game_logic_keys st kl kr r1 q1 r2 q2 :
  game_logic st (mkKeys kl kr r1 q1) = game_logic st (mkKeys kl kr r2 q2).
Proof. reflexivity. Qed.

(** X8. While the game is running the keys [R] and [Q] do nothing: if the
    iteration does not end the game, it gives the same state whether they
    are pressed or not. *)
Theorem X8_restart_and_quit_keys_ignored_while_running (st : Loop)
    (es : list Event) (kl kr r q : bool) (controls : list pyval) :
  game_over (game_state st) = false ->
  game_over (game_state
               (game_tick st (mkInput es (mkKeys kl kr false false) controls)))
  = false ->
  game_tick st (mkInput es (mkKeys kl kr r q) controls)
  = game_tick st (mkInput es (mkKeys kl kr false false) controls).
Proof.
  intros Hgo. rewrite !game_tick_unfold, Hgo. simpl negb. cbv iota.
  cbn [keys].
  change (after_events st (mkInput es (mkKeys kl kr r q) controls))
    with (after_events st (mkInput es (mkKeys kl kr false false) controls)).
  rewrite (game_logic_keys _ kl kr r q false false).
  set (L := game_logic _ _). unfold game_over_screen. cbn [K_r K_q].
  destruct (game_over (game_state L)) eqn:HL; [|reflexivity].
  intros Hstill. rewrite HL in Hstill. discriminate.
Qed.

Lemma X8_restart_and_quit_keys_ignored_while_running_witness :
  game_tick game_start (mkInput [SPAWN_SQUARE 0 69] (mkKeys true false true true)
                          [PyStr "left"])
  = game_tick game_start (mkInput [SPAWN_SQUARE 0 69]
                            (mkKeys true false false false) [PyStr "left"]).
Proof.
  apply (X8_restart_and_quit_keys_ignored_while_running game_start
           [SPAWN_SQUARE 0 69] true false true true [PyStr "left"]);
    reflexivity.
Defined.

Lemma game_loop_app st a b :
  game_loop st (a ++ b) = game_loop (game_loop st a) b.
Proof.
  revert st. induction a as [|inp a IH]; intros st; simpl.
  - reflexivity.
  - destruct (running st) eqn:Hrun; [apply IH|].
    destruct b; simpl; rewrite ?Hrun; reflexivity.
Qed.

Lemma game_loop_stopped st inputs :
  running st = false -> game_loop st inputs = st.
Proof. intros Hrun. destruct inputs; simpl; rewrite ?Hrun; reflexivity. Qed.

Lemma game_over_screen_running st k :
  running (game_over_screen st k)
  = running st
    && negb (game_over (game_state st) && negb (K_r k) && K_q k).
Proof.
  unfold game_over_screen.
  destruct (game_over (game_state st)), (K_r k), (K_q k); simpl;
    rewrite ?andb_true_r, ?andb_false_r; reflexivity.
Qed.

Lemma game_logic_running st k : running (game_logic st k) = running st.
Proof. rewrite game_logic_eq. reflexivity. Qed.

(** X9. A [QUIT] event stops the loop at the end of the iteration that
    handles it, and so does [Q] on the game-over screen when [R] is not
    pressed; once the loop has stopped, no later input changes anything. *)
Theorem X9_quit_stops_the_loop (st : Loop) (inp : Input) (inputs more : list Input) :
  (In QUIT (events inp) -> running (game_tick st inp) = false)
  /\ (game_over (game_state st) = true -> K_r (keys inp) = false ->
      K_q (keys inp) = true -> running (game_tick st inp) = false)
  /\ (running (game inputs) = false -> game (inputs ++ more) = game inputs).
Proof.
  split; [|split].
  - intros Hquit. rewrite game_tick_unfold, game_over_screen_running.
    assert (Hstop : running (after_events st inp) = false).
    { unfold after_events. rewrite running_handle_events.
      assert (Hex : existsb is_quit (events inp) = true)
        by (apply existsb_exists; exists QUIT; split; [exact Hquit | reflexivity]).
      rewrite Hex. apply andb_false_r. }
    destruct (game_over (game_state st)); simpl;
      rewrite ?game_logic_running, Hstop; reflexivity.
  - intros Hgo Hr Hq. rewrite game_tick_unfold, game_over_screen_running, Hgo.
    simpl. destruct (after_events_frame st inp) as (-> & _).
    rewrite Hgo, Hr, Hq. simpl. apply andb_false_r.
  - intros Hrun. unfold game. rewrite game_loop_app.
    apply game_loop_stopped, Hrun.
Qed.

Lemma X9_quit_stops_the_loop_witness :
  running (game_tick game_start quit_now) = false
  /\ running (game_tick (game lost_game) press_q) = false
  /\ game ([quit_now] ++ [to_left_wall]) = game [quit_now].
Proof.
  destruct (X9_quit_stops_the_loop game_start quit_now [quit_now] [to_left_wall])
    as (Hquit & _ & Hfrozen).
  destruct (X9_quit_stops_the_loop (game lost_game) press_q [] [])
    as (_ & Hq & _).
  split; [apply Hquit; left; reflexivity|].
  split; [apply Hq; [vm_compute; reflexivity | reflexivity | reflexivity]|].
  apply Hfrozen. reflexivity.
Defined.

(** ** The catch window *)

Lemma colliderect_paddle_square px x y :
  colliderect (mkRect px (SCREEN_HEIGHT - 10 - PADDLE_HEIGHT)
                 PADDLE_WIDTH PADDLE_HEIGHT)
    (mkRect x y SQUARE_SIZE SQUARE_SIZE)
  = (px - SQUARE_SIZE <? x) && (x <? px + PADDLE_WIDTH)
    && (SCREEN_HEIGHT - 10 - PADDLE_HEIGHT - SQUARE_SIZE <? y)
    && (y <? SCREEN_HEIGHT - 10).
Proof.
  unfold colliderect, left, right, top, bottom; simpl.
  unfold SCREEN_HEIGHT, PADDLE_HEIGHT, PADDLE_WIDTH, SQUARE_SIZE.
  apply eq_true_iff_eq.
  rewrite !andb_true_iff, !Z.ltb_lt. lia.
Qed.

(** X10. In an iteration of the game a square is caught exactly when,
    after it has moved, its [x] is strictly between
    [paddle_x - SQUARE_SIZE] and [paddle_x + PADDLE_WIDTH] and its [y] is
    strictly between 540 and 590 (touching edges do not count). A square
    that is caught is never at the same time below the screen. *)
Theorem X10_catch_window (inputs : list Input) (inp : Input) (s : FallingSquare) :
  s ∈ squares_in_play (game inputs) inp ->
  is_caught (paddle_in_play (game inputs) inp) s
  = (rect_x (paddle_rect (paddle_in_play (game inputs) inp)) - SQUARE_SIZE
       <? rect_x (sq_rect s))
    && (rect_x (sq_rect s)
          <? rect_x (paddle_rect (paddle_in_play (game inputs) inp))
             + PADDLE_WIDTH)
    && (SCREEN_HEIGHT - 10 - PADDLE_HEIGHT - SQUARE_SIZE <? rect_y (sq_rect s))
    && (rect_y (sq_rect s) <? SCREEN_HEIGHT - 10)
  /\ (is_caught (paddle_in_play (game inputs) inp) s = true ->
      is_missed s = false).
Proof.
  intros Hs. apply list_elem_of_In in Hs.
  destruct (squares_in_play_fresh (game inputs) inp (squares_ok_game inputs) s Hs)
    as (s0 & -> & Hw & Hh & _).
  rewrite (paddle_in_play_eq _ inp (game_inv inputs)).
  set (px := clamp_paddle _).
  destruct s0 as [[x y w h] sp id]; simpl in Hw, Hh; subst w h.
  unfold is_caught, is_missed, FallingSquare_update, set_y.
  cbn [paddle_rect sq_rect sq_speed rect_x rect_y rect_w rect_h].
  rewrite colliderect_paddle_square. split; [reflexivity|].
  rewrite !andb_true_iff, !Z.ltb_lt. intros (_ & Hy).
  apply Z.ltb_ge. unfold top, SCREEN_HEIGHT in *. simpl. lia.
Qed.

Lemma X10_catch_window_witness :
  is_caught (paddle_in_play (game catch_run) idle)
    (mkSquare (mkRect 380 542 30 30) 3 "sq_1") = true
  /\ is_missed (mkSquare (mkRect 380 542 30 30) 3 "sq_1") = false.
Proof.
  destruct (X10_catch_window catch_run idle
              (mkSquare (mkRect 380 542 30 30) 3 "sq_1")) as [Heq Hexcl].
  - vm_compute. left.
  - assert (Hc : is_caught (paddle_in_play (game catch_run) idle)
                   (mkSquare (mkRect 380 542 30 30) 3 "sq_1") = true)
      by (rewrite Heq; vm_compute; reflexivity).
    split; [exact Hc | exact (Hexcl Hc)].
Defined.

(** ** The websocket handler *)

Lemma on_message_append data queue :
  on_message data queue
  = match on_message data [] with
    | inl e => inl e
    | inr added => inr (queue ++ added)
    end.
Proof.
  destruct data; simpl; try reflexivity.
  destruct (py_eq_str (dict_get items "type") "control"); simpl.
  - reflexivity.
  - rewrite app_nil_r. reflexivity.
Qed.

Lemma receive_loop_append messages queue :
  receive_loop messages queue
  = (queue ++ (receive_loop messages []).1.1,
     (receive_loop messages []).1.2,
     (receive_loop messages []).2).
Proof.
  revert queue. induction messages as [|m messages IH]; intros queue.
  - simpl. rewrite app_nil_r. reflexivity.
  - destruct m as [text|data]; simpl.
    + rewrite app_nil_r. reflexivity.
    + rewrite (on_message_append data queue).
      destruct (on_message data []) as [e|added]; simpl.
      * rewrite app_nil_r. reflexivity.
      * rewrite (IH (queue ++ added)), (IH added). simpl.
        rewrite app_assoc. reflexivity.
Qed.

Lemma receive_loop_objects messages queue :
  forallb is_object messages = true ->
  receive_loop messages queue = (queue ++ controls_of messages, None, []).
Proof.
  revert queue. induction messages as [|m messages IH]; intros queue Hall.
  - simpl. rewrite app_nil_r. reflexivity.
  - simpl in Hall. apply andb_true_iff in Hall as [Hm Hall].
    destruct m as [text|data]; [discriminate|].
    destruct data; try discriminate. simpl.
    destruct (py_eq_str (dict_get items "type") "control").
    + rewrite (IH _ Hall), <- app_assoc. reflexivity.
    + apply IH, Hall.
Qed.

(** X11. When every message of a connection decodes to a JSON object, the
    handler reads them all and ends without an exception: the directions
    of the messages of type ['control'] are appended to the queue in the
    order received (a missing direction as [None]), the messages of any
    other type change nothing, and the client is unregistered at the end. *)
Theorem X11_wellformed_stream_is_queued_in_order (ws : websocket)
    (messages : list inbound) (clients : gset websocket) (queue : list pyval) :
  forallb is_object messages = true ->
  websocket_handler ws messages clients queue
  = mkHandled (inr (clients ∖ {[ws]})) (queue ++ controls_of messages) None [].
Proof.
  intros Hall. unfold websocket_handler.
  rewrite (receive_loop_objects messages queue Hall),
    unregister_after_register. reflexivity.
Qed.

Lemma X11_wellformed_stream_is_queued_in_order_witness :
  websocket_handler 1%nat
    [control_message "left"; restart_message;
     Decoded (PyDict [("type", PyStr "control")]%string);
     control_message "right"] {[1%nat; 2%nat]} [PyStr "up"]
  = mkHandled (inr ({[1%nat; 2%nat]} ∖ {[1%nat]}))
      [PyStr "up"; PyStr "left"; PyNone; PyStr "right"] None [].
Proof.
  apply (X11_wellformed_stream_is_queued_in_order 1%nat
           [control_message "left"; restart_message;
            Decoded (PyDict [("type", PyStr "control")]%string);
            control_message "right"]).
  reflexivity.
Defined.

(** X12. A message that is valid JSON but not an object (a list, a
    number, a string, [null], ...) ends the handler like a message that
    does not parse: [data.get] raises [AttributeError], the messages after
    it are never read and the client is unregistered. *)
Theorem X12_non_object_message_ends_handler (ws : websocket)
    (before after : list inbound) (data : pyval)
    (clients : gset websocket) (queue : list pyval) :
  (receive_loop before queue).1.2 = None ->
  is_dict data = false ->
  websocket_handler ws (before ++ Decoded data :: after) clients queue
  = mkHandled (inr (clients ∖ {[ws]})) (receive_loop before queue).1.1
      (Some AttributeError) after.
Proof.
  intros Hok Hdata. unfold websocket_handler.
  rewrite (receive_loop_app before _ queue Hok), unregister_after_register.
  destruct data; try discriminate; reflexivity.
Qed.

Lemma X12_non_object_message_ends_handler_witness :
  websocket_handler 1%nat
    ([control_message "right"] ++ Decoded (PyList [PyInt 1])
     :: [control_message "left"]) {[1%nat]} []
  = mkHandled (inr ({[1%nat]} ∖ {[1%nat]})) [PyStr "right"]
      (Some AttributeError) [control_message "left"].
Proof.
  apply (X12_non_object_message_ends_handler 1%nat [control_message "right"]
           [control_message "left"] (PyList [PyInt 1]) {[1%nat]} []);
    reflexivity.
Defined.

(** X13. Whatever the messages are, good or bad, the [finally] clause
    never fails with [KeyError]: the handler returns with its own client
    removed from the registry and every other client still registered. *)
Theorem X13_handler_always_unregisters (ws : websocket)
    (messages : list inbound) (clients : gset websocket) (queue : list pyval) :
  h_clients (websocket_handler ws messages clients queue)
  = inr (clients ∖ {[ws]}).
Proof.
  unfold websocket_handler.
  destruct (receive_loop messages queue) as [[q caught] unread]. simpl.
  apply unregister_after_register.
Qed.

(** X14. The handler only appends to the control queue: the controls
    already queued are kept, in front and in order, and what the handler
    adds, the exception that ends it and the messages it leaves unread do
    not depend on them. *)
Theorem X14_handler_only_appends (ws : websocket) (messages : list inbound)
    (clients : gset websocket) (queue : list pyval) :
  h_queue (websocket_handler ws messages clients queue)
  = queue ++ h_queue (websocket_handler ws messages clients [])
  /\ h_caught (websocket_handler ws messages clients queue)
     = h_caught (websocket_handler ws messages clients [])
  /\ h_unread (websocket_handler ws messages clients queue)
     = h_unread (websocket_handler ws messages clients []).
Proof.
  unfold websocket_handler. rewrite (receive_loop_append messages queue).
  destruct (receive_loop messages []) as [[q caught] unread]. simpl.
  repeat split; reflexivity.
Qed.

(** ** The broadcast *)

(** X15. From a state of the game the broadcast step does one of three
    things: nothing at all when no client is connected, even if squares are
    published; when the published list of squares is empty, it sends to
    every connected client one message with the fields [paddle_x],
    [squares], [score], [lives] and [game_over] of the game state in that
    order; otherwise it raises [AttributeError]. *)
Theorem X15_broadcast_cases (inputs : list Input) (clients : gset websocket) :
  send_game_state_to_clients clients (game_state (game inputs))
  = if decide (clients = ∅) then Idle
    else match squares (game_state (game inputs)) with
         | [] =>
             Sent (PyDict [("paddle_x", PyInt (paddle_x (game_state (game inputs))));
                           ("squares", PyList []);
                           ("score", PyInt (score (game_state (game inputs))));
                           ("lives", PyInt (lives (game_state (game inputs))));
                           ("game_over",
                            PyBool (game_over (game_state (game inputs))))]%string)
               clients
         | _ :: _ => Raised AttributeError
         end.
Proof.
  unfold send_game_state_to_clients.
  destruct (decide (clients = ∅)); [reflexivity|].
  rewrite (inv_squares _ (game_inv inputs)).
  destruct (falling_squares_pygame_group (game inputs)) as [|s group];
    reflexivity.
Qed.

(** X16. On the sprite objects of the group the comprehension of the
    broadcast does not raise and builds exactly the dictionaries that
    [game()] publishes in [game_state['squares']]. *)
Theorem X16_client_squares_of_sprites (group : list FallingSquare) :
  client_squares (List.map PySprite group)
  = inr (List.map square_dict group).
Proof.
  induction group as [|s group IH]; [reflexivity|].
  simpl. simpl in IH. rewrite IH. reflexivity.
Qed.

(** ** The lock *)

(** X17. With [game_state_lock] as it is (a [threading.Lock], which is not
    re-entrant), an iteration of the loop that starts with the game running
    never ends: [game()] holds the lock when [all_sprites.update()] calls
    [Paddle.update], which waits for the same lock. An iteration that
    starts with the game over returns, with the state computed by
    [game_tick]. In particular the first iteration of [game()] blocks. *)
Theorem X17_running_iteration_blocks_on_lock (st : Loop) (inp : Input) :
  game_tick_locking st inp
  = (if game_over (game_state st) then Returned (game_tick st inp) else Blocked)
  /\ game_tick_locking game_start inp = Blocked.
Proof.
  assert (Hgen : forall st0,
             game_tick_locking st0 inp
             = if game_over (game_state st0)
               then Returned (game_tick st0 inp) else Blocked).
  { intros st0. unfold game_tick_locking, locked_block. simpl.
    rewrite game_tick_unfold.
    destruct (after_events_frame st0 inp) as (-> & _).
    destruct (game_over (game_state st0)); reflexivity. }
  split; [apply Hgen|]. rewrite Hgen. reflexivity.
Qed.

(** ** What an iteration does to the squares *)

Lemma handle_events_spawns es st :
  game_over (game_state st) = false ->
  falling_squares_pygame_group (fold_left handle_event es st)
  = falling_squares_pygame_group st ++ spawns (square_id_counter st) es.
Proof.
  revert st. induction es as [|e es IH]; intros st Hgo; simpl.
  - rewrite app_nil_r. reflexivity.
  - rewrite IH by (destruct (handle_event_frame st e) as (-> & _); exact Hgo).
    destruct e; simpl; rewrite ?Hgo; simpl; try reflexivity.
    rewrite <- app_assoc. reflexivity.
Qed.

(** X18. While the game is over and [R] is not pressed, the whole
    published state is frozen: over any number of iterations [paddle_x],
    [squares], [score], [lives] and [game_over] keep their values, and so
    does the paddle sprite. *)
Theorem X18_state_frozen_while_game_over (st : Loop) (inputs : list Input) :
  game_over (game_state st) = true ->
  Forall (fun inp => K_r (keys inp) = false) inputs ->
  game_state (game_loop st inputs) = game_state st
  /\ paddle (game_loop st inputs) = paddle st.
Proof.
  revert st. induction inputs as [|inp inputs IH]; intros st Hgo Hall.
  - split; reflexivity.
  - apply Forall_cons in Hall as [Hr Hall]. simpl.
    destruct (running st); [|split; reflexivity].
    destruct (idle_tick_eq st inp Hgo Hr) as (Hgs & _ & Hp & _).
    destruct (IH (game_tick st inp)) as [-> ->];
      [rewrite Hgs; exact Hgo | exact Hall |].
    split; assumption.
Qed.

Lemma X18_state_frozen_while_game_over_witness :
  game_state (game_loop (game lost_game) [left_arrives; press_q; idle])
  = game_state (game lost_game).
Proof.
  apply (X18_state_frozen_while_game_over (game lost_game)
           [left_arrives; press_q; idle]).
  - vm_compute. reflexivity.
  - repeat constructor.
Defined.

(** * The loop as it runs *)

(** ** One iteration *)

(** An iteration that starts with the game running: the state in which
    the main thread is stuck *)
Lemma tick_progress_running st inp :
  game_over (game_state st) = false ->
  tick_progress st inp
  = Stuck (mkLoop (game_state st) (control_queue st ++ arrivals inp)
             (Paddle_keys (paddle st) (keys inp))
             (falling_squares_pygame_group st
              ++ spawns (square_id_counter st) (events inp))
             (square_id_counter st + spawn_count (events inp))
             (running st && negb (existsb is_quit (events inp)))).
Proof.
  intros Hgo. unfold tick_progress.
  destruct (after_events_frame st inp) as (-> & -> & ->). rewrite Hgo. simpl.
  unfold after_events.
  rewrite handle_events_spawns, handle_events_counter, running_handle_events
    by exact Hgo.
  simpl. rewrite Hgo. reflexivity.
Qed.

(** An iteration that starts with the game over completes, and the lock
    plays no part in it *)
Lemma tick_progress_over st inp :
  game_over (game_state st) = true ->
  tick_progress st inp = Completed (game_tick st inp).
Proof.
  intros Hgo. unfold tick_progress. rewrite game_tick_unfold.
  destruct (after_events_frame st inp) as (-> & _). rewrite Hgo. reflexivity.
Qed.

(** The two accounts of the lock agree *)
Lemma game_tick_locking_progress st inp :
  game_tick_locking st inp
  = match tick_progress st inp with
    | Completed st' => Returned st'
    | Stuck _ => Blocked
    end.
Proof.
  unfold game_tick_locking, locked_block, tick_progress. simpl.
  destruct (game_over (game_state (after_events st inp))); reflexivity.
Qed.

(** The published state after an iteration is the one before it, or the
    start state after a restart. *)
Lemma tick_progress_published st inp :
  game_state (observed (tick_progress st inp)) = game_state st
  \/ game_state (observed (tick_progress st inp)) = game_state game_start.
Proof.
  destruct (game_over (game_state st)) eqn:Hgo.
  - rewrite (tick_progress_over st inp Hgo). simpl.
    destruct (K_r (keys inp)) eqn:Hr.
    + right. apply (restart_tick_eq st inp Hgo Hr).
    + left. apply (idle_tick_eq st inp Hgo Hr).
  - rewrite (tick_progress_running st inp Hgo). left. reflexivity.
Qed.

Lemma loop_progress_published inputs st :
  game_state (observed (loop_progress st inputs)) = game_state st
  \/ game_state (observed (loop_progress st inputs)) = game_state game_start.
Proof.
  revert st. induction inputs as [|inp inputs IH]; intros st; simpl.
  - left. reflexivity.
  - destruct (running st); [|left; reflexivity].
    pose proof (tick_progress_published st inp) as Htick.
    destruct (tick_progress st inp) as [st'|st']; simpl in Htick.
    + destruct (IH st') as [-> | ->]; [exact Htick | right; reflexivity].
    + exact Htick.
Qed.

(** The first iteration of [game()] already blocks. *)
Lemma game_progress_stuck inp inputs :
  lock_held (game_progress (inp :: inputs)) = true
  /\ game_state (observed (game_progress (inp :: inputs)))
     = game_state game_start.
Proof.
  unfold game_progress. simpl.
  rewrite (tick_progress_running game_start inp eq_refl). split; reflexivity.
Qed.

(** ** Lives and game over (C1, C6) *)





(** ** Catches (C7) *)



(** ** Controls received while the game is over (C4) *)




(** ** Clamping (C5) *)

(** C5, as stated, fails: with the paddle at the left wall,
    [Paddle.update] on the batch [left, right] leaves it at 0, whereas
    clamping after each command would put it at 8. *)
Lemma C5_clamp_after_each_command_refuted :
  rect_x (paddle_rect
            (Paddle_update paddle_at_wall no_keys game_state0
               left_then_right).1.1) = 0
  /\ paddle_x (Paddle_update paddle_at_wall no_keys game_state0
                 left_then_right).1.2 = 0
  /\ spec_apply_clamped 8 left_then_right (rect_x (paddle_rect paddle_at_wall))
     = 8.
Proof. repeat split; reflexivity. Qed.

(** C5, amended. One call of [Paddle.update] on a paddle of width
    [PADDLE_WIDTH] adds the moves of the arrow keys and of every control
    of the queue to the abscissa without any clamping in between, clamps
    the sum once to [[0, SCREEN_WIDTH - PADDLE_WIDTH]], publishes that
    value as [paddle_x] and leaves the queue empty. *)
Theorem C5_batch_clamped_once (p : Paddle) (k : Keys) (gs : GameState)
    (queue : list pyval) :
  rect_w (paddle_rect p) = PADDLE_WIDTH ->
  Paddle_update p k gs queue
  = (mkPaddle
       (set_x (paddle_rect p)
          (clamp_paddle (rect_x (paddle_rect p) + key_delta (paddle_speed p) k
                         + batch_delta (paddle_speed p) queue)))
       (paddle_speed p),
     set_paddle_x gs
       (clamp_paddle (rect_x (paddle_rect p) + key_delta (paddle_speed p) k
                      + batch_delta (paddle_speed p) queue)),
     []).
Proof. intros Hw. apply (Paddle_update_eq p k gs queue Hw). Qed.

Lemma C5_batch_clamped_once_witness :
  rect_w (paddle_rect paddle_at_wall) = PADDLE_WIDTH
  /\ paddle_x (Paddle_update paddle_at_wall no_keys game_state0
                 left_then_right).1.2
     = clamp_paddle (0 + 0 + (-8 + 8)).
Proof.
  split; [reflexivity|].
  rewrite (C5_batch_clamped_once paddle_at_wall no_keys game_state0
             left_then_right eq_refl).
  reflexivity.
Defined.

(** ** The broadcast (C2) *)

(** C2. Once [game()] has entered its first iteration the main thread is
    stuck holding [game_state_lock]; from then on a broadcast period with
    a client connected waits for the lock at line 154 and never takes the
    snapshot, so nothing is encoded or sent. *)
Theorem C2_broadcast_blocked_on_lock (inp : Input) (inputs : list Input)
    (clients : gset websocket) :
  clients <> ∅ ->
  lock_held (game_progress (inp :: inputs)) = true
  /\ send_game_state_to_clients_locking
       (lock_held (game_progress (inp :: inputs))) clients
       (game_state (observed (game_progress (inp :: inputs))))
     = Blocked.
Proof.
  intros Hclients.
  destruct (game_progress_stuck inp inputs) as [Hheld _].
  split; [exact Hheld|]. rewrite Hheld.
  unfold send_game_state_to_clients_locking.
  destruct (decide (clients = ∅)); [contradiction | reflexivity].
Qed.

Lemma C2_broadcast_blocked_on_lock_witness :
  ({[1%nat]} : gset websocket) <> ∅
  /\ send_game_state_to_clients_locking
       (lock_held (game_progress [idle])) {[1%nat]}
       (game_state (observed (game_progress [idle])))
     = Blocked.
Proof.
  assert (Hne : ({[1%nat]} : gset websocket) <> ∅).
  { intros Heq. assert (Hin : 1%nat ∈ ({[1%nat]} : gset websocket))
      by (apply elem_of_singleton; reflexivity).
    rewrite Heq in Hin. exact (not_elem_of_empty _ Hin). }
  split; [exact Hne|].
  apply (C2_broadcast_blocked_on_lock idle [] {[1%nat]} Hne).
Defined.

(** ** What a running iteration does *)

(** X19. An iteration that starts with the game running handles its
    events and then stops in [Paddle.update]: the controls that arrived are
    queued behind the others and none is taken out; one new square per
    timer event is appended to the group, in event order, with the ids
    that follow the counter; a [QUIT] event clears [running]; the arrow
    keys move the paddle sprite, unclamped; and the main thread is stuck at
    the lock with no square moved or removed and the published state
    untouched. *)
Theorem X19_running_iteration_stuck_state (st : Loop) (inp : Input) :
  game_over (game_state st) = false ->
  tick_progress st inp
  = Stuck (mkLoop (game_state st) (control_queue st ++ arrivals inp)
             (Paddle_keys (paddle st) (keys inp))
             (falling_squares_pygame_group st
              ++ spawns (square_id_counter st) (events inp))
             (square_id_counter st + spawn_count (events inp))
             (running st && negb (existsb is_quit (events inp)))).
Proof. apply tick_progress_running. Qed.

Lemma X19_running_iteration_stuck_state_witness :
  tick_progress game_start
    (mkInput [SPAWN_SQUARE 380 69; QUIT] (mkKeys true false false false)
       [PyStr "left"])
  = Stuck (mkLoop (game_state game_start) [PyStr "left"]
             (mkPaddle (mkRect 342 570 100 20) 8)
             [mkSquare (mkRect 380 (-31) 30 30) 3 "sq_1"] 1 false).
Proof.
  rewrite (X19_running_iteration_stuck_state game_start
             (mkInput [SPAWN_SQUARE 380 69; QUIT] (mkKeys true false false false)
                [PyStr "left"]) eq_refl).
  vm_compute. reflexivity.
Defined.

(** Every published state of the program is the published state of
    [game] before its first iteration. *)
Lemma game_progress_published inputs :
  game_state (observed (game_progress inputs)) = game_state (game []).
Proof.
  destruct (loop_progress_published inputs game_start) as [H | H]; exact H.
Qed.
